(** * DiscretePlanner: a shallow embedding of
      home_robot/navigation_planner/discrete_planner.py

    Conventions of the embedding.
    - Python floats (poses, angles, thresholds, distance fields) are
      rationals [Q]; Python ints are [Z].  [int(x)] on a float is
      truncation toward zero, [//] is floor division.
    - A 2-D numpy array is its shape together with its cell function; an
      assignment through a slice (a numpy view) updates the base array.
    - A method of the planner is a computation over the planner object that
      either returns or raises, and keeps whatever it had already mutated
      when it raises.
    - The FMM planner (fmm_planner.py) and the float math library are
      collaborators whose code is not in discrete_planner.py: they are
      interfaces, and the general theorems hold for all of their
      implementations; the number drawn by [np.random] is an argument of
      the call.  Concrete implementations are used only to replay single
      cycles. *)

From Stdlib Require Import ZArith QArith Qabs Qround List Bool Lia Lqa.
Import ListNotations.
Open Scope Z_scope.

(* ================================================================= *)
(** ** Python outcomes and the planner monad *)

Inductive PyExn : Type :=
| ValueError      (* numpy: empty sample range, argmax/min of an empty
                     array, negative dimension, shapes that do not agree *)
| IndexError      (* index or boolean mask out of range *)
| TypeError       (* unpacking None *)
| NonFinite       (* int() of a float that is not finite *)
| LibraryError    (* OpenCV / scipy reject an empty image or footprint *)
| EngineError.    (* raised inside the FMM planner *)

Inductive result (A : Type) : Type :=
| Ok (a : A)
| Raise (e : PyExn).
Arguments Ok {A} a.
Arguments Raise {A} e.


(** A method: reads and mutates [S], returns or raises. *)
Definition M (S A : Type) : Type := S -> result A * S.

Definition ret {S A} (a : A) : M S A := fun s => (Ok a, s).
Definition raise {S A} (e : PyExn) : M S A := fun s => (Raise e, s).
Definition bind {S A B} (m : M S A) (k : A -> M S B) : M S B :=
  fun s => match m s with
           | (Ok a, s') => k a s'
           | (Raise e, s') => (Raise e, s')
           end.
Definition get {S} : M S S := fun s => (Ok s, s).
Definition gets {S A} (f : S -> A) : M S A := fun s => (Ok (f s), s).
Definition modify {S} (f : S -> S) : M S unit := fun s => (Ok tt, f s).
Definition lift {S A} (r : result A) : M S A := fun s => (r, s).
Definition when {S} (b : bool) (m : M S unit) : M S unit :=
  if b then m else ret tt.

Declare Scope py_scope.
Delimit Scope py_scope with py.
Notation "x <- m ;; k" := (bind m (fun x => k))
  (at level 61, m at next level, right associativity) : py_scope.
Notation "m ;;; k" := (bind m (fun _ => k))
  (at level 61, right associativity) : py_scope.
Notation "' pat <- m ;; k" := (bind m (fun x => match x with pat => k end))
  (at level 61, pat pattern, m at next level, right associativity) : py_scope.

(* ================================================================= *)
(** ** Floats as rationals *)

Definition Qltb (a b : Q) : bool := negb (Qle_bool b a).

(** Python [int(x)]: truncation toward zero. *)
Definition py_int (x : Q) : Z := Z.quot (Qnum x) (Zpos (Qden x)).

(** [np.rint]: round to the nearest integer, ties to the even one. *)
Definition np_rint (x : Q) : Z :=
  let f := Qfloor x in
  let d := (x - inject_Z f)%Q in
  if Qltb d (1 # 2) then f
  else if Qltb (1 # 2) d then f + 1
  else if Z.even f then f else f + 1.

(** [sqrt(s) * k < m] for [0 <= s], decided on the squares. *)
Definition sqrt_mul_ltb (s k m : Q) : bool :=
  if Qle_bool 0 k
  then Qltb 0 m && Qltb (s * k * k) (m * m)
  else Qltb 0 m || Qltb (m * m) (s * k * k).

(** [sqrt(s) * k > m] for [0 <= s]. *)
Definition sqrt_mul_gtb (s k m : Q) : bool :=
  if Qle_bool 0 k
  then Qltb m 0 || Qltb (m * m) (s * k * k)
  else Qltb m 0 && Qltb (s * k * k) (m * m).

(* ================================================================= *)
(** ** numpy arrays *)

Record ndarray (A : Type) : Type := mk_ndarray {
  shape : Z * Z;
  item : Z -> Z -> A
}.
Arguments mk_ndarray {A} shape item.
Arguments shape {A} n.
Arguments item {A} n r c.

Definition nrows {A} (a : ndarray A) : Z := fst (shape a).
Definition ncols {A} (a : ndarray A) : Z := snd (shape a).

Definition inside (sh : Z * Z) (r c : Z) : bool :=
  (0 <=? r) && (r <? fst sh) && (0 <=? c) && (c <? snd sh).

(** Reading a cell with a non-negative index. *)
Definition cell {A} (a : ndarray A) (r c : Z) : option A :=
  if inside (shape a) r c then Some (item a r c) else None.

Definition shape_eqb (s t : Z * Z) : bool :=
  (fst s =? fst t) && (snd s =? snd t).

Definition np_full {A} (sh : Z * Z) (v : A) : ndarray A :=
  mk_ndarray sh (fun _ _ => v).

(** [np.zeros(shape)]: numpy rejects a negative dimension. *)
Definition np_zeros (sh : Z * Z) : result (ndarray Z) :=
  if (fst sh <? 0) || (snd sh <? 0) then Raise ValueError
  else Ok (np_full sh 0).

Definition np_zeros_like {A} (a : ndarray A) : ndarray Z :=
  np_full (shape a) 0.

Definition np_map {A B} (f : A -> B) (a : ndarray A) : ndarray B :=
  mk_ndarray (shape a) (fun r c => f (item a r c)).

(** [range(n)]. *)
Definition range (n : Z) : list Z := map Z.of_nat (seq 0 (Z.to_nat n)).

(** The cells of an array in row-major order. *)
Definition indices (sh : Z * Z) : list (Z * Z) :=
  flat_map (fun r => map (fun c => (r, c)) (range (snd sh))) (range (fst sh)).

(** One bound of a slice [a:b] on an axis of length [n]. *)
Definition slice_index (i n : Z) : Z :=
  if i <? 0 then Z.max (i + n) 0 else Z.min i n.

(** [a:b] on an axis of length [n]: first index and length. *)
Definition py_slice (a b n : Z) : Z * Z :=
  let s := slice_index a n in
  let e := slice_index b n in
  (s, Z.max 0 (e - s)).

(** A rectangular view into a base array. *)
Record view : Type := mk_view {
  row0 : Z; col0 : Z; vrows : Z; vcols : Z
}.

Definition whole {A} (a : ndarray A) : view :=
  mk_view 0 0 (Z.max 0 (nrows a)) (Z.max 0 (ncols a)).

(** [v[a:b, c:d]]. *)
Definition subview (v : view) (a b c d : Z) : view :=
  let (s, l) := py_slice a b (vrows v) in
  let (s', l') := py_slice c d (vcols v) in
  mk_view (row0 v + s) (col0 v + s') l l'.

Definition in_view (v : view) (r c : Z) : bool :=
  (row0 v <=? r) && (r <? row0 v + vrows v) &&
  (col0 v <=? c) && (c <? col0 v + vcols v).

(** Reading through a view. *)
Definition view_read {A} (a : ndarray A) (v : view) : ndarray A :=
  mk_ndarray (vrows v, vcols v) (fun r c => item a (row0 v + r) (col0 v + c)).

(** [base[view] = x]. *)
Definition view_fill {A} (a : ndarray A) (v : view) (x : A) : ndarray A :=
  mk_ndarray (shape a) (fun r c => if in_view v r c then x else item a r c).

(** [a[r, c] = x] with integer indices: negative indices count from the
    end, anything else out of range raises. *)
Definition py_index (i n : Z) : result Z :=
  if (0 <=? i) && (i <? n) then Ok i
  else if (- n <=? i) && (i <? 0) then Ok (i + n)
  else Raise IndexError.

Definition setitem {A} (a : ndarray A) (r c : Z) (x : A) : result (ndarray A) :=
  match py_index r (nrows a), py_index c (ncols a) with
  | Ok r', Ok c' =>
      Ok (mk_ndarray (shape a)
            (fun i j => if (i =? r') && (j =? c') then x else item a i j))
  | _, _ => Raise IndexError
  end.

(** [a[mask] = x] with a boolean mask: the shapes have to agree. *)
Definition mask_assign {A} (a : ndarray A) (m : ndarray bool) (x : A)
  : result (ndarray A) :=
  if shape_eqb (shape m) (shape a)
  then Ok (mk_ndarray (shape a)
             (fun r c => if inside (shape a) r c && item m r c then x
                         else item a r c))
  else Raise IndexError.

(** [np.nonzero] of a boolean array, row-major. *)
Definition np_nonzero (m : ndarray bool) : list (Z * Z) :=
  filter (fun rc => item m (fst rc) (snd rc)) (indices (shape m)).

(** [np.unravel_index(m.argmax(), m.shape)] of a boolean array: the first
    set cell, the first cell when none is set; an empty array raises. *)
Definition np_argmax (m : ndarray bool) : result (Z * Z) :=
  match indices (shape m) with
  | [] => Raise ValueError
  | first :: _ =>
      match np_nonzero m with
      | [] => Ok first
      | rc :: _ => Ok rc
      end
  end.

(** [a.min()] of a float array; an empty array raises. *)
Definition np_min (a : ndarray Q) : result Q :=
  match map (fun rc => item a (fst rc) (snd rc)) (indices (shape a)) with
  | [] => Raise ValueError
  | x :: xs => Ok (fold_left (fun m y => if Qltb y m then y else m) xs x)
  end.

(** [add_boundary(mat, value)]. *)
Definition add_boundary {A} (mat : ndarray A) (value : A) : ndarray A :=
  let h := nrows mat in
  let w := ncols mat in
  mk_ndarray (h + 2, w + 2)
    (fun r c => if inside (h, w) (r - 1) (c - 1)
                then item mat (r - 1) (c - 1) else value).

(** [remove_boundary(mat, value=1)]: [mat[value:-value, value:-value]]. *)
Definition remove_boundary {A} (mat : ndarray A) (value : Z) : ndarray A :=
  view_read mat (subview (whole mat) value (- value) value (- value)).

(* ================================================================= *)
(** ** Grid morphology (skimage / OpenCV) *)

(** [skimage.morphology.disk(radius)]: the cells of a (2r+1)-square within
    distance r of its centre; no cell at all for a negative radius. *)
Definition disk (radius : Z) : ndarray Z :=
  let n := Z.max 0 (2 * radius + 1) in
  mk_ndarray (n, n)
    (fun i j => if (i - radius) * (i - radius) + (j - radius) * (j - radius)
                   <=? radius * radius then 1 else 0).

(** Offsets of the set cells of a structuring element from its centre. *)
Definition selem_offsets (k : ndarray Z) : list (Z * Z) :=
  map (fun ij => (fst ij - nrows k / 2, snd ij - ncols k / 2))
      (filter (fun ij => negb (item k (fst ij) (snd ij) =? 0))
              (indices (shape k))).

Definition is_empty {A} (a : ndarray A) : bool :=
  (nrows a <=? 0) || (ncols a <=? 0).

(** The values an element placed at [(r, c)] covers inside the image. *)
Definition covered {A} (a : ndarray A) (k : ndarray Z) (r c : Z) : list A :=
  map (fun d => item a (r + fst d) (c + snd d))
      (filter (fun d => inside (shape a) (r + fst d) (c + snd d))
              (selem_offsets k)).

(** [cv2.dilate(src, kernel, iterations=1)]: the maximum under the kernel;
    an empty kernel stands for the 3x3 square, an empty image is rejected.
    (A kernel that covers no cell of the image yields the border value,
    which a disk, holding its centre, never does.) *)
Definition cv2_dilate (src : ndarray Z) (kernel : ndarray Z)
  : result (ndarray Z) :=
  if is_empty src then Raise LibraryError
  else
    let k := if is_empty kernel then np_full (3, 3) 1 else kernel in
    Ok (mk_ndarray (shape src)
          (fun r c => match covered src k r c with
                      | [] => 0
                      | v :: vs => fold_left Z.max vs v
                      end)).

(** [skimage.morphology.binary_dilation(image, selem)]. *)
Definition binary_dilation (image : ndarray Z) (selem : ndarray Z)
  : result (ndarray bool) :=
  if is_empty selem then Raise LibraryError
  else Ok (mk_ndarray (shape image)
             (fun r c => existsb (fun v => negb (v =? 0))
                                 (covered image selem r c))).

(* ================================================================= *)
(** ** Collaborators *)

(** The float math library: [math.degrees(math.atan2(a, b))] on integer
    arguments, [np.cos(np.deg2rad(t))] and [np.sin(np.deg2rad(t))]. *)
Class FloatMath : Type := {
  atan2_deg : Z -> Z -> Q;
  cos_deg : Q -> Q;
  sin_deg : Q -> Q
}.

(** [FMMPlanner] (fmm_planner.py), as the planner uses it.  A planner is
    built on a traversability grid; every answer may also be an exception.
    - [_find_nearest_to_multi_goal trav goal]: the nearest traversable cell
      to a goal mask;
    - [set_multi_goal trav goal timestep]: solves and leaves the distance
      field [planner.fmm_dist];
    - [get_short_term_goal trav step_size fmm_dist state]: the waypoint and
      the flags [(stg_x, stg_y, replan, stop)] on a solved field. *)
Class FMMPlanner : Type := {
  _find_nearest_to_multi_goal :
    ndarray Z -> ndarray Z -> result (Z * Z);
  set_multi_goal :
    ndarray Z -> ndarray Z -> Z -> result (ndarray Q);
  get_short_term_goal :
    ndarray Z -> Z -> ndarray Q -> Z * Z -> result (Q * Q * bool * bool)
}.

(* ================================================================= *)
(** ** home_robot.utils.pose *)

(** Modelled from the spec: [pu.threshold_poses] (home_robot/utils/pose.py
    is not part of the sources at hand); the spec has the cell "clamped
    into grid bounds": each coordinate is raised to 0 and lowered to the
    last index of its axis. *)
Definition threshold_poses (coords : Z * Z) (sh : Z * Z) : Z * Z :=
  (Z.min (Z.max 0 (fst coords)) (fst sh - 1),
   Z.min (Z.max 0 (snd coords)) (snd sh - 1)).

(** Modelled from the spec: [pu.normalize_angle] (same missing file); the
    spec has angles "wrapped to [-180, 180]" degrees. *)
Definition normalize_angle (angle : Q) : Q :=
  let a := (angle - 360 * inject_Z (Qfloor (angle / 360)))%Q in
  if Qltb 180 a then (a - 360)%Q else a.

(** Modelled from the spec: [pu.get_l2_distance] (same missing file), the
    "true Euclidean displacement" between two positions, carried as its
    square. *)
Definition get_l2_distance_sq (x1 x2 y1 y2 : Q) : Q :=
  ((x1 - x2) * (x1 - x2) + (y1 - y2) * (y1 - y2))%Q.

(** [np.linalg.norm(a - b)] of two cells, carried as its square. *)
Definition norm_sq (a b : Z * Z) : Q :=
  inject_Z ((fst a - fst b) * (fst a - fst b)
            + (snd a - snd b) * (snd a - snd b)).

(* ================================================================= *)
(** ** The planner object *)

(** [DiscreteNavigationAction], the members the planner emits. *)
Inductive DiscreteNavigationAction : Type :=
| STOP | MOVE_FORWARD | TURN_LEFT | TURN_RIGHT.

Definition action_eqb (a b : DiscreteNavigationAction) : bool :=
  match a, b with
  | STOP, STOP | MOVE_FORWARD, MOVE_FORWARD
  | TURN_LEFT, TURN_LEFT | TURN_RIGHT, TURN_RIGHT => true
  | _, _ => false
  end.

Definition pose : Type := Q * Q * Q.

(** The arguments of [__init__] that planning reads (the visualisation
    arguments are left out with the visualisation). *)
Record Config : Type := mk_Config {
  turn_angle : Q;
  collision_threshold : Q;
  step_size : Z;
  start_obs_dilation_selem_radius : Z;
  goal_dilation_selem_radius : Z;
  map_size_cm : Z;
  map_resolution : Z;
  min_goal_distance_cm : Q;
  min_obs_dilation_selem_radius : Z;
  agent_cell_radius : Z
}.

(** [self.map_shape]. *)
Definition map_shape (c : Config) : Z * Z :=
  (map_size_cm c / map_resolution c, map_size_cm c / map_resolution c).

(** The attributes [reset] and [plan] mutate.  A value of this type is a
    planner on which [reset] has run: before that the attributes are
    [None]; [last_pose] and [last_action] are [None] again after every
    [reset]. *)
Record DiscretePlanner : Type := mk_DiscretePlanner {
  cfg : Config;
  collision_map : ndarray Z;
  visited_map : ndarray Z;
  col_width : Z;
  last_pose : option pose;
  curr_pose : pose;
  last_action : option DiscreteNavigationAction;
  timestep : Z;
  curr_obs_dilation_selem_radius : Z;
  obs_dilation_selem : ndarray Z
}.

Definition set_collision_map (v : ndarray Z) (s : DiscretePlanner) :=
  mk_DiscretePlanner (cfg s) v (visited_map s) (col_width s) (last_pose s)
    (curr_pose s) (last_action s) (timestep s)
    (curr_obs_dilation_selem_radius s) (obs_dilation_selem s).
Definition set_visited_map (v : ndarray Z) (s : DiscretePlanner) :=
  mk_DiscretePlanner (cfg s) (collision_map s) v (col_width s) (last_pose s)
    (curr_pose s) (last_action s) (timestep s)
    (curr_obs_dilation_selem_radius s) (obs_dilation_selem s).
Definition set_col_width (v : Z) (s : DiscretePlanner) :=
  mk_DiscretePlanner (cfg s) (collision_map s) (visited_map s) v (last_pose s)
    (curr_pose s) (last_action s) (timestep s)
    (curr_obs_dilation_selem_radius s) (obs_dilation_selem s).
Definition set_last_pose (v : option pose) (s : DiscretePlanner) :=
  mk_DiscretePlanner (cfg s) (collision_map s) (visited_map s) (col_width s) v
    (curr_pose s) (last_action s) (timestep s)
    (curr_obs_dilation_selem_radius s) (obs_dilation_selem s).
Definition set_curr_pose (v : pose) (s : DiscretePlanner) :=
  mk_DiscretePlanner (cfg s) (collision_map s) (visited_map s) (col_width s)
    (last_pose s) v (last_action s) (timestep s)
    (curr_obs_dilation_selem_radius s) (obs_dilation_selem s).
Definition set_last_action (v : option DiscreteNavigationAction)
    (s : DiscretePlanner) :=
  mk_DiscretePlanner (cfg s) (collision_map s) (visited_map s) (col_width s)
    (last_pose s) (curr_pose s) v (timestep s)
    (curr_obs_dilation_selem_radius s) (obs_dilation_selem s).
Definition set_timestep (v : Z) (s : DiscretePlanner) :=
  mk_DiscretePlanner (cfg s) (collision_map s) (visited_map s) (col_width s)
    (last_pose s) (curr_pose s) (last_action s) v
    (curr_obs_dilation_selem_radius s) (obs_dilation_selem s).
Definition set_obs_dilation (radius : Z) (selem : ndarray Z)
    (s : DiscretePlanner) :=
  mk_DiscretePlanner (cfg s) (collision_map s) (visited_map s) (col_width s)
    (last_pose s) (curr_pose s) (last_action s) (timestep s) radius selem.

Definition Planner (A : Type) : Type := M DiscretePlanner A.

Local Open Scope py_scope.

(** [for x in xs: body(x)]. *)
Fixpoint for_each {S A} (xs : list A) (body : A -> M S unit) : M S unit :=
  match xs with
  | [] => ret tt
  | x :: xs' => body x ;;; for_each xs' body
  end.

(** *** [DiscretePlanner.reset] *)
Definition reset : Planner unit :=
  c <- gets cfg ;;
  cm <- lift (np_zeros (map_shape c)) ;;
  modify (set_collision_map cm) ;;;
  vm <- lift (np_zeros (map_shape c)) ;;
  modify (set_visited_map vm) ;;;
  modify (set_col_width 1) ;;;
  modify (set_last_pose None) ;;;
  modify (set_curr_pose
            ((inject_Z (map_size_cm c) / 100 / 2)%Q,
             (inject_Z (map_size_cm c) / 100 / 2)%Q,
             0%Q)) ;;;
  modify (set_last_action None) ;;;
  modify (set_timestep 1) ;;;
  modify (set_obs_dilation (start_obs_dilation_selem_radius c)
            (disk (start_obs_dilation_selem_radius c))).

(** *** [DiscretePlanner._check_collision] *)

(** Lines 453-463: the stall test on the two axis displacements. *)
Definition stalled (x1 y1 x2 y2 : Q) : bool :=
  Qltb (Qabs (x1 - x2)) (5 # 100) && Qltb (Qabs (y1 - y2)) (5 # 100).

(** Lines 453-463: the new [col_width] and this cycle's [length] and
    [buf]. *)
Definition stall_update (col_width : Z) (stall : bool) : Z * Z * Z :=
  let buf := 4 in
  let length := 2 in
  if stall then
    let col_width := col_width + 2 in
    let '(length, buf) := if col_width =? 7 then (4, 3) else (length, buf) in
    (Z.min col_width 5, length, buf)
  else (1, length, buf).

(** [int(x * 100 / self.map_resolution)]; there is no finite quotient by a
    zero resolution. *)
Definition to_cell (x : Q) (resolution : Z) : result Z :=
  if resolution =? 0 then Raise NonFinite
  else Ok (py_int (x * 100 / inject_Z resolution)%Q).

Section WithMath.
Context {math : FloatMath}.

(** Lines 474-481: the metric point [(wx, wy)] of footprint cell [(i, j)]. *)
Definition footprint_point (x1 y1 t1 : Q) (width buf i j : Z) : Q * Q :=
  let wx := (x1 + (5 # 100) * (inject_Z (i + buf) * cos_deg t1
                               + inject_Z (j - width / 2) * sin_deg t1))%Q in
  let wy := (y1 + (5 # 100) * (inject_Z (i + buf) * sin_deg t1
                               - inject_Z (j - width / 2) * cos_deg t1))%Q in
  (wx, wy).

(** Lines 482-486: the index [(r, c)] that footprint cell [(i, j)] is
    written at. *)
Definition footprint_index (resolution : Z) (sh : Z * Z) (x1 y1 t1 : Q)
    (width buf i j : Z) : result (Z * Z) :=
  let '(wx, wy) := footprint_point x1 y1 t1 width buf i j in
  match to_cell wy resolution, to_cell wx resolution with
  | Ok r, Ok c => Ok (threshold_poses (r, c) sh)
  | Raise e, _ => Raise e
  | _, Raise e => Raise e
  end.

(** The loop nest of lines 472-473. *)
Definition footprint_cells (length width : Z) : list (Z * Z) :=
  flat_map (fun i => map (fun j => (i, j)) (range width)) (range length).

(** Line 487, for one footprint cell. *)
Definition paint (x1 y1 t1 : Q) (width buf : Z) (ij : Z * Z) : Planner unit :=
  self <- get ;;
  rc <- lift (footprint_index (map_resolution (cfg self))
                (shape (collision_map self)) x1 y1 t1 width buf
                (fst ij) (snd ij)) ;;
  cm <- lift (setitem (collision_map self) (fst rc) (snd rc) 1) ;;
  modify (set_collision_map cm).

Definition _check_collision : Planner unit :=
  self <- get ;;
  match last_pose self with
  | None => raise TypeError
  | Some (x1, y1, t1) =>
      let '(x2, y2, _) := curr_pose self in
      let '(width', length, buf) :=
        stall_update (col_width self) (stalled x1 y1 x2 y2) in
      modify (set_col_width width') ;;;
      if sqrt_mul_ltb (get_l2_distance_sq x1 x2 y1 y2) 1
           (collision_threshold (cfg self))
      then
        width <- gets col_width ;;
        for_each (footprint_cells length width) (paint x1 y1 t1 width buf)
      else ret tt
  end.

End WithMath.

(* ================================================================= *)
(** ** [DiscretePlanner._get_short_term_goal] *)

(** What [_get_short_term_goal] returns. *)
Record stg_result : Type := mk_stg_result {
  short_term_goal : Z * Z;
  closest_goal_map : ndarray bool;
  replan : bool;
  stop : bool;
  closest_goal_pt : Z * Z
}.

Definition window : Type := Z * Z * Z * Z.

(** [grid[gx1:gx2, gy1:gy2][x1:x2, y1:y2]] as a view of [grid]. *)
Definition window_view {A} (grid : ndarray A) (w : window) (x1 x2 y1 y2 : Z)
  : view :=
  let '(gx1, gx2, gy1, gy2) := w in
  subview (subview (whole grid) gx1 gx2 gy1 gy2) x1 x2 y1 y2.

(** Lines 336-356: the traversability grid, before its boundary frame. *)
Definition traversible_grid (self : DiscretePlanner)
    (obstacle_map : ndarray Z) (start : Z * Z) (w : window)
  : result (ndarray Z) :=
  let '(x1, y1) := (0, 0) in
  let '(x2, y2) := shape obstacle_map in
  let obstacles :=
    view_read obstacle_map (subview (whole obstacle_map) x1 x2 y1 y2) in
  match cv2_dilate obstacles (obs_dilation_selem self) with
  | Raise e => Raise e
  | Ok dilated_obstacles =>
      let traversible := np_map (fun v => 1 - v) dilated_obstacles in
      let hit :=
        np_map (fun v => v =? 1)
          (view_read (collision_map self)
             (window_view (collision_map self) w x1 x2 y1 y2)) in
      match mask_assign traversible hit 0 with
      | Raise e => Raise e
      | Ok traversible =>
          let seen :=
            np_map (fun v => v =? 1)
              (view_read (visited_map self)
                 (window_view (visited_map self) w x1 x2 y1 y2)) in
          match mask_assign traversible seen 1 with
          | Raise e => Raise e
          | Ok traversible =>
              let agent_rad := agent_cell_radius (cfg self) in
              Ok (view_fill traversible
                    (subview (whole traversible)
                       (fst start - x1 - agent_rad)
                       (fst start - x1 + agent_rad + 1)
                       (snd start - y1 - agent_rad)
                       (snd start - y1 + agent_rad + 1))
                    1)
          end
      end
  end.

(** Lines 399-407: the closest-goal mask and its first cell, from the
    padded goal map and the distance field seeded at the agent.  The
    product needs the two shapes to agree (broadcasting of axes of length
    1 is left out). *)
Definition closest_goal (goal_map : ndarray Z) (fmm_dist_ : ndarray Q)
  : result (ndarray bool * (Z * Z)) :=
  let goal_map_ := np_map (fun v => if v =? 0 then 10000 else v) goal_map in
  let fmm_dist_ :=
    np_map (fun d => if Qeq_bool d 0 then 10000%Q else d) fmm_dist_ in
  if negb (shape_eqb (shape goal_map_) (shape fmm_dist_))
  then Raise ValueError
  else
    let prod :=
      mk_ndarray (shape goal_map_)
        (fun r c => (inject_Z (item goal_map_ r c) * item fmm_dist_ r c)%Q) in
    match np_min prod with
    | Raise e => Raise e
    | Ok m =>
        let closest_goal_map :=
          remove_boundary (np_map (fun v => Qeq_bool v m) prod) 1 in
        match np_argmax closest_goal_map with
        | Raise e => Raise e
        | Ok pt => Ok (closest_goal_map, pt)
        end
    end.

Section WithCollaborators.
Context {math : FloatMath} {fmm : FMMPlanner}.

Definition _get_short_term_goal (obstacle_map goal_map : ndarray Z)
    (start : Z * Z) (planning_window : window) (plan_to_dilated_goal : bool)
  : Planner stg_result :=
  self <- get ;;
  let '(x1, y1) := (0, 0) in
  traversible <-
    lift (traversible_grid self obstacle_map start planning_window) ;;
  let traversible := add_boundary traversible 1 in
  let goal_map := add_boundary goal_map 0 in
  (* the goal front handed to [planner.set_multi_goal], and the navigable
     goal of the precise mode *)
  '(multi_goal, navigable_goal) <-
    (if plan_to_dilated_goal then
       let selem := disk (goal_dilation_selem_radius (cfg self)) in
       dilated <- lift (binary_dilation goal_map selem) ;;
       ret (np_map (fun b : bool => if b then 1 else 0) dilated, (0, 0))
     else
       navigable_goal <- lift (_find_nearest_to_multi_goal traversible goal_map) ;;
       navigable_goal_map <-
         lift (setitem (np_zeros_like goal_map)
                 (fst navigable_goal) (snd navigable_goal) 1) ;;
       ret (navigable_goal_map, navigable_goal)) ;;
  field <- lift (set_multi_goal traversible multi_goal (timestep self)) ;;
  modify (set_timestep (timestep self + 1)) ;;;
  let state := (fst start - x1 + 1, snd start - y1 + 1) in
  '(stg_x, stg_y, replan, stop) <-
    lift (get_short_term_goal traversible (step_size (cfg self)) field state) ;;
  let '(stg_x, stg_y) :=
    ((stg_x + inject_Z x1 - 1)%Q, (stg_y + inject_Z y1 - 1)%Q) in
  let short_term_goal := (py_int stg_x, py_int stg_y) in
  (* closest point on the goal map *)
  curr_loc_map <-
    lift (setitem (np_zeros_like goal_map) (fst start) (snd start) 1) ;;
  fmm_dist_ <- lift (set_multi_goal traversible curr_loc_map 0) ;;
  '(closest_goal_map, closest_goal_pt) <-
    lift (closest_goal goal_map fmm_dist_) ;;
  let resolution := inject_Z (map_resolution (cfg self)) in
  let min_dist := min_goal_distance_cm (cfg self) in
  let '(replan, stop) :=
    if negb plan_to_dilated_goal then
      (sqrt_mul_gtb (norm_sq start navigable_goal) resolution min_dist,
       sqrt_mul_ltb (norm_sq start closest_goal_pt) resolution min_dist)
    else (replan, stop) in
  ret (mk_stg_result short_term_goal closest_goal_map replan stop
         closest_goal_pt).

End WithCollaborators.

(* ================================================================= *)
(** ** [DiscretePlanner.plan] *)

(** The (7,) array [sensor_pose]. *)
Record SensorPose : Type := mk_SensorPose {
  start_x : Q; start_y : Q; start_o : Q;
  gx1 : Q; gx2 : Q; gy1 : Q; gy2 : Q
}.

(** The arguments of one call of [plan], with the number the random
    generator hands out during the call ([debug] only prints). *)
Record PlanArgs : Type := mk_PlanArgs {
  obstacle_map : ndarray Q;
  goal_map : ndarray Z;
  frontier_map : ndarray Z;
  sensor_pose : SensorPose;
  found_goal : bool;
  use_dilation_for_stg : bool;
  random_draw : Z
}.

(** [np.random.randint(high)]: a draw from [0, high), no draw from an empty
    range. *)
Definition np_random_randint (draw high : Z) : result Z :=
  if high <=? 0 then Raise ValueError else Ok (draw mod high).

(** What lines 153-179 leave for the rest of the cycle: the binarised
    obstacle map, the agent's cell and the planning window. *)
Record Located : Type := mk_Located {
  obstacles_of : ndarray Z;
  start_of : Z * Z;
  window_of : window
}.

Section Plan.
Context {math : FloatMath} {fmm : FMMPlanner}.

(** Lines 153-179: pose history, agent cell, visited mark, collision
    check. *)
Definition plan_locate (a : PlanArgs) : Planner Located :=
  self <- get ;;
  modify (set_last_pose (Some (curr_pose self))) ;;;
  let obstacle_map := np_map np_rint (obstacle_map a) in
  let sp := sensor_pose a in
  let '(gx1, gx2, gy1, gy2) :=
    (py_int (gx1 sp), py_int (gx2 sp), py_int (gy1 sp), py_int (gy2 sp)) in
  let planning_window := (gx1, gx2, gy1, gy2) in
  let resolution := map_resolution (cfg self) in
  when (resolution =? 0) (raise NonFinite) ;;;
  let start :=
    (py_int (start_y sp * 100 / inject_Z resolution - inject_Z gx1)%Q,
     py_int (start_x sp * 100 / inject_Z resolution - inject_Z gy1)%Q) in
  let start := threshold_poses start (shape obstacle_map) in
  modify (set_curr_pose (start_x sp, start_y sp, start_o sp)) ;;;
  visited <- gets visited_map ;;
  modify (set_visited_map
            (view_fill visited
               (window_view visited planning_window
                  (fst start - 0) (fst start + 1)
                  (snd start - 0) (snd start + 1))
               1)) ;;;
  last <- gets last_action ;;
  when (match last with
        | Some act => action_eqb act MOVE_FORWARD
        | None => false
        end) _check_collision ;;;
  ret (mk_Located obstacle_map start planning_window).

(** Lines 211-224: after a failed plan. *)
Definition relax_obstacles : Planner unit :=
  cm <- gets collision_map ;;
  modify (set_collision_map (np_map (fun v => v * 0) cm)) ;;;
  self <- get ;;
  when (min_obs_dilation_selem_radius (cfg self)
          <? curr_obs_dilation_selem_radius self)
       (modify (set_obs_dilation
                  (curr_obs_dilation_selem_radius self - 1)
                  (disk (curr_obs_dilation_selem_radius self - 1)))).

(** Lines 185-253: the short-term goal, with the frontier fallback; also
    the value of [found_goal] for the rest of the cycle. *)
Definition plan_resolve (a : PlanArgs) (l : Located)
  : Planner (stg_result * bool) :=
  r <- _get_short_term_goal (obstacles_of l) (goal_map a) (start_of l)
         (window_of l) (use_dilation_for_stg a) ;;
  if replan r && negb (stop r) then
    relax_obstacles ;;;
    if found_goal a then
      r' <- _get_short_term_goal (obstacles_of l) (frontier_map a)
              (start_of l) (window_of l) true ;;
      ret (r', false)
    else ret (r, found_goal a)
  else ret (r, found_goal a).

(** Lines 286-305: the local policy. *)
Definition decide (turn_angle relative_angle relative_angle_goal : Q)
    (found_goal stop : bool) : DiscreteNavigationAction :=
  if negb (found_goal && stop) then
    if Qltb (turn_angle / 2) relative_angle then TURN_RIGHT
    else if Qltb relative_angle (- turn_angle / 2) then TURN_LEFT
    else MOVE_FORWARD
  else
    if Qltb (2 * turn_angle / 3) relative_angle_goal then TURN_RIGHT
    else if Qltb relative_angle_goal (- (2) * turn_angle / 3) then TURN_LEFT
    else STOP.

(** Lines 255-309: bearings, the sampled goal cell, the action. *)
Definition plan_act (a : PlanArgs) (l : Located) (r : stg_result)
    (found_goal : bool)
  : Planner (DiscreteNavigationAction * ndarray bool) :=
  self <- get ;;
  let start := start_of l in
  let '(stg_x, stg_y) := short_term_goal r in
  let angle_st_goal := atan2_deg (stg_x - fst start) (stg_y - snd start) in
  let angle_agent := normalize_angle (start_o (sensor_pose a)) in
  let relative_angle := normalize_angle (angle_agent - angle_st_goal) in
  let goals := np_nonzero (closest_goal_map r) in
  idx <- lift (np_random_randint (random_draw a) (Z.of_nat (length goals))) ;;
  let '(goal_x, goal_y) := nth (Z.to_nat idx) goals (0, 0) in
  let angle_goal :=
    normalize_angle (atan2_deg (goal_x - fst start) (goal_y - snd start)) in
  let relative_angle_goal := normalize_angle (angle_agent - angle_goal) in
  let action :=
    decide (turn_angle (cfg self)) relative_angle relative_angle_goal
      found_goal (stop r) in
  modify (set_last_action (Some action)) ;;;
  ret (action, closest_goal_map r).

Definition plan (a : PlanArgs)
  : Planner (DiscreteNavigationAction * ndarray bool) :=
  l <- plan_locate a ;;
  '(r, found_goal) <- plan_resolve a l ;;
  plan_act a l r found_goal.

(** An episode: [reset] once, then one [plan] per cycle; a cycle that
    raises leaves the planner as it was when it raised. *)
Definition run_cycles (cycles : list PlanArgs) (self : DiscretePlanner)
  : DiscretePlanner :=
  fold_left (fun s a => snd (plan a s)) cycles self.

End Plan.

(* ================================================================= *)
(** ** Concrete collaborators for replaying cycles *)

(** A float math library that is exact on the eight compass directions and
    on headings that are multiples of 90 degrees (and gives 0 elsewhere):
    the replayed cycles below stay on these. *)
Definition compass_atan2_deg (a b : Z) : Q :=
  let diagonal (q : Q) : Q := if (Z.abs a =? Z.abs b)%Z then q else 0%Q in
  match (a ?= 0)%Z, (b ?= 0)%Z with
  | Eq, Lt => 180%Q
  | Eq, _ => 0%Q
  | Gt, Eq => 90%Q
  | Lt, Eq => (- (90))%Q
  | Gt, Gt => diagonal 45%Q
  | Gt, Lt => diagonal 135%Q
  | Lt, Lt => diagonal (- (135))%Q
  | Lt, Gt => diagonal (- (45))%Q
  end.

Definition compass_cos_deg (t : Q) : Q :=
  let a := (t - 360 * inject_Z (Qfloor (t / 360)))%Q in
  if Qeq_bool a 0 then 1
  else if Qeq_bool a 180 then - (1)
  else 0.

Definition compass_sin_deg (t : Q) : Q :=
  let a := (t - 360 * inject_Z (Qfloor (t / 360)))%Q in
  if Qeq_bool a 90 then 1
  else if Qeq_bool a 270 then - (1)
  else 0.

Definition compass_math : FloatMath :=
  {| atan2_deg := compass_atan2_deg;
     cos_deg := compass_cos_deg;
     sin_deg := compass_sin_deg |}.

(** Modelled from the spec: the Geodesic Distance Engine (fmm_planner.py is
    not part of the sources at hand), on a grid without obstacles and with
    a 4-connected wavefront of unit step cost: the field is the least
    number of steps to a seed cell, "cells never reached by the front hold
    a sentinel value larger than any real distance" (all of them when the
    seed mask is empty), the nearest cell to a mask is the first cell of
    minimal field value, the waypoint descends the field for up to
    [step_size] cells, [replan] tells the sentinel at the agent's cell and
    [stop] that the agent's cell is a seed. *)
Module OpenGrid.

Definition seeds (mask : ndarray Z) : list (Z * Z) :=
  filter (fun rc => item mask (fst rc) (snd rc) =? 1) (indices (shape mask)).

Definition sentinel (sh : Z * Z) : Z := fst sh + snd sh.

Definition steps (sh : Z * Z) (sds : list (Z * Z)) (r c : Z) : Z :=
  fold_left (fun m s => Z.min m (Z.abs (r - fst s) + Z.abs (c - snd s)))
            sds (sentinel sh).

Definition solve (trav mask : ndarray Z) : ndarray Q :=
  mk_ndarray (shape trav)
    (fun r c => inject_Z (steps (shape trav) (seeds mask) r c)).

Definition nearest (trav mask : ndarray Z) : Z * Z :=
  match seeds mask with
  | s :: _ => s
  | [] => (0, 0)
  end.

(** One step of descent: the first 4-neighbour with a smaller value. *)
Definition descend (field : ndarray Q) (p : Z * Z) : Z * Z :=
  let here := item field (fst p) (snd p) in
  match filter (fun q => inside (shape field) (fst q) (snd q)
                         && Qltb (item field (fst q) (snd q)) here)
               [(fst p - 1, snd p); (fst p + 1, snd p);
                (fst p, snd p - 1); (fst p, snd p + 1)] with
  | q :: _ => q
  | [] => p
  end.

Definition waypoint (trav : ndarray Z) (step_size : Z) (field : ndarray Q)
    (state : Z * Z) : Q * Q * bool * bool :=
  let p := fold_left (fun p _ => descend field p) (range step_size) state in
  let here := item field (fst state) (snd state) in
  (inject_Z (fst p), inject_Z (snd p),
   Qeq_bool here (inject_Z (sentinel (shape field))),
   Qeq_bool here 0).

Definition engine : FMMPlanner :=
  {| _find_nearest_to_multi_goal := fun trav mask => Ok (nearest trav mask);
     set_multi_goal := fun trav mask _ => Ok (solve trav mask);
     get_short_term_goal :=
       fun trav step field state => Ok (waypoint trav step field state) |}.

End OpenGrid.

(** *** A 3x3 room at 5 cm per cell *)

Definition room_cfg (min_goal_distance goal_radius : Z) : Config :=
  {| turn_angle := 30;
     collision_threshold := 20 # 100;
     step_size := 1;
     start_obs_dilation_selem_radius := 2;
     goal_dilation_selem_radius := goal_radius;
     map_size_cm := 15;
     map_resolution := 5;
     min_goal_distance_cm := inject_Z min_goal_distance;
     min_obs_dilation_selem_radius := 1;
     agent_cell_radius := 1 |}.

(** A planner right after [reset]. *)
Definition fresh (c : Config) : DiscretePlanner :=
  {| cfg := c;
     collision_map := np_full (map_shape c) 0;
     visited_map := np_full (map_shape c) 0;
     col_width := 1;
     last_pose := None;
     curr_pose := ((inject_Z (map_size_cm c) / 100 / 2)%Q,
                   (inject_Z (map_size_cm c) / 100 / 2)%Q, 0%Q);
     last_action := None;
     timestep := 1;
     curr_obs_dilation_selem_radius := start_obs_dilation_selem_radius c;
     obs_dilation_selem := disk (start_obs_dilation_selem_radius c) |}.

(** A mask with the given cells set. *)
Definition mask_of (sh : Z * Z) (cells : list (Z * Z)) : ndarray Z :=
  mk_ndarray sh
    (fun r c => if existsb (fun p => (fst p =? r) && (snd p =? c)) cells
                then 1 else 0).

(** A cycle in the room: no obstacle, the agent at metric [(x, y)] heading
    along the first axis, the whole map as planning window. *)
Definition room_cycle (x y : Q) (goals frontier : list (Z * Z))
    (found dilated : bool) : PlanArgs :=
  {| obstacle_map := np_full (3, 3) 0%Q;
     goal_map := mask_of (3, 3) goals;
     frontier_map := mask_of (3, 3) frontier;
     sensor_pose := mk_SensorPose x y 0 0 3 0 3;
     found_goal := found;
     use_dilation_for_stg := dilated;
     random_draw := 0 |}.

(** What a test can see of a call: the outcome and the counters. *)
Definition observe (out : result (DiscreteNavigationAction * ndarray bool)
                          * DiscretePlanner) :=
  (match fst out with
   | Ok (act, m) => Ok (act, np_nonzero m)
   | Raise e => Raise e
   end,
   timestep (snd out), curr_obs_dilation_selem_radius (snd out),
   col_width (snd out)).

(** *** A 20x20 map at 5 cm per cell, the robot held in place *)

Definition hall_cfg (threshold : Q) : Config :=
  {| turn_angle := 30;
     collision_threshold := threshold;
     step_size := 1;
     start_obs_dilation_selem_radius := 2;
     goal_dilation_selem_radius := 2;
     map_size_cm := 100;
     map_resolution := 5;
     min_goal_distance_cm := 5;
     min_obs_dilation_selem_radius := 1;
     agent_cell_radius := 1 |}.

(** After a forward move from [(x, y)] that ended at [(x', y')], heading
    along the first axis. *)
Definition moved (threshold x y x' y' : Q) : DiscretePlanner :=
  set_last_action (Some MOVE_FORWARD)
    (set_curr_pose (x', y', 0%Q)
       (set_last_pose (Some (x, y, 0%Q)) (fresh (hall_cfg threshold)))).

(** The cells of a map that hold 1. *)
Definition painted (m : ndarray Z) : list (Z * Z) :=
  filter (fun rc => item m (fst rc) (snd rc) =? 1) (indices (shape m)).

(** A forward move of 3 cm along the first axis, with a collision
    threshold of 1 cm: a stall on both axes, but no collision. *)
Definition drifted : DiscretePlanner :=
  moved (1 # 100) (20 # 100) (50 # 100) (23 # 100) (50 # 100).

(** A forward move that did not move the robot at all, with a collision
    threshold of 20 cm. *)
Definition stuck : DiscretePlanner :=
  moved (20 # 100) (20 # 100) (50 # 100) (20 # 100) (50 # 100).

(** *** Replayed cycles *)

(** The room's planner right after [reset]. *)
Definition room : DiscretePlanner := fresh (room_cfg 5 2).

(** The agent at cell (1, 0), the goal seen two cells ahead at (1, 2), a
    frontier cell at (0, 2); precise mode. *)
Definition far_goal_cycle : PlanArgs :=
  room_cycle 0 (5 # 100) [(1, 2)] [(0, 2)] true false.

(** The same cycle with [use_dilation_for_stg]. *)
Definition dilated_cycle : PlanArgs :=
  room_cycle 0 (5 # 100) [(1, 2)] [(0, 2)] true true.

(** The agent at the corner cell (0, 0) and no goal cell at all. *)
Definition no_goal_cycle : PlanArgs :=
  room_cycle 0 0 [] [] true false.

(** The agent at the corner cell (0, 0) of a grid that is all obstacle, on
    a planner whose CollisionMap is all collision. *)
Definition walled_cycle : PlanArgs :=
  {| obstacle_map := np_full (3, 3) 1%Q;
     goal_map := mask_of (3, 3) [(1, 2)];
     frontier_map := mask_of (3, 3) [(0, 2)];
     sensor_pose := mk_SensorPose 0 0 0 0 3 0 3;
     found_goal := true;
     use_dilation_for_stg := false;
     random_draw := 0 |}.

Definition boxed : DiscretePlanner :=
  set_collision_map (np_full (3, 3) 1) room.

(** The mask a call returned. *)
Definition returned_mask
    (out : result (DiscreteNavigationAction * ndarray bool) * DiscretePlanner)
  : ndarray bool :=
  match fst out with
  | Ok (_, m) => m
  | Raise _ => np_full (0, 0) false
  end.

(** The short-term goal inside an outcome of [first_goal]. *)
Definition goal_in (r : result ((Z * Z) * stg_result)) : stg_result :=
  match r with
  | Ok (_, g) => g
  | Raise _ => mk_stg_result (0, 0) (np_full (0, 0) false) false false (0, 0)
  end.


(** *** Episodes *)

Section Reachable.
Context {math : FloatMath} {fmm : FMMPlanner}.

(** The planners a caller can observe: after a [reset] that returned, and
    from there after any call of [plan] or [_check_collision], whether it
    returned or raised. *)
Inductive reachable : DiscretePlanner -> Prop :=
| reach_reset : forall s s', reset s = (Ok tt, s') -> reachable s'
| reach_plan : forall s a, reachable s -> reachable (snd (plan a s))
| reach_check : forall s, reachable s -> reachable (snd (_check_collision s)).

(** [n] calls of [_check_collision] in a row. *)
Fixpoint check_collisions (n : nat) (s : DiscretePlanner) : DiscretePlanner :=
  match n with
  | O => s
  | S n' => check_collisions n' (snd (_check_collision s))
  end.

(** The agent's cell and the first short-term goal of a call (lines
    153-197), when the call gets that far. *)
Definition first_goal (a : PlanArgs) (s : DiscretePlanner)
  : result ((Z * Z) * stg_result) :=
  match plan_locate a s with
  | (Ok l, s1) =>
      match _get_short_term_goal (obstacles_of l) (goal_map a) (start_of l)
              (window_of l) (use_dilation_for_stg a) s1 with
      | (Ok r, _) => Ok (start_of l, r)
      | (Raise e, _) => Raise e
      end
  | (Raise e, _) => Raise e
  end.

(** Whether the first short-term goal of a call signals a failed plan
    (line 211: [replan and not stop]). *)
Definition plan_fails (a : PlanArgs) (s : DiscretePlanner) : bool :=
  match first_goal a s with
  | Ok (_, r) => replan r && negb (stop r)
  | Raise _ => false
  end.

(** Whether the frontier fallback of lines 226-247 runs in a call. *)
Definition fallback_runs (a : PlanArgs) (s : DiscretePlanner) : bool :=
  plan_fails a s && found_goal a.

(** What lines 153-253 hand to the choice of the action: the short-term
    goal in force and [found_goal]. *)
Definition resolved (a : PlanArgs) (s : DiscretePlanner)
  : result (stg_result * bool) :=
  match plan_locate a s with
  | (Ok l, s1) => fst (plan_resolve a l s1)
  | (Raise e, _) => Raise e
  end.

End Reachable.

(* ================================================================= *)
(** ** Relations and notions used by the properties *)

(** A field that a computation does not touch. *)
Definition unchanged {S A} (f : S -> A) (s s' : S) : Prop := f s' = f s.

(** One step of the radius: the configuration stays, the radius does not
    grow, and it does not pass below the configured minimum. *)
Definition radius_step (s s' : DiscretePlanner) : Prop :=
  cfg s' = cfg s /\
  curr_obs_dilation_selem_radius s' <= curr_obs_dilation_selem_radius s /\
  Z.min (curr_obs_dilation_selem_radius s)
        (min_obs_dilation_selem_radius (cfg s))
    <= curr_obs_dilation_selem_radius s'.

Definition odd_upto_5 (w : Z) : Prop := w = 1 \/ w = 3 \/ w = 5.

(** [s'] is [s] with some in-bounds cells of CollisionMap set to 1. *)
Definition painted_within (s s' : DiscretePlanner) : Prop :=
  cfg s' = cfg s /\
  shape (collision_map s') = shape (collision_map s) /\
  forall r c,
    item (collision_map s') r c = item (collision_map s) r c \/
    (0 <= r < nrows (collision_map s) /\
     0 <= c < ncols (collision_map s) /\
     item (collision_map s') r c = 1).

Definition keeps_odd_upto_5 (s s' : DiscretePlanner) : Prop :=
  odd_upto_5 (col_width s) -> odd_upto_5 (col_width s').

(** The agent's cell of a cycle. *)
Definition agent_cell (a : PlanArgs) (s : DiscretePlanner) : Z * Z :=
  let sp := sensor_pose a in
  let resolution := inject_Z (map_resolution (cfg s)) in
  threshold_poses
    (py_int (start_y sp * 100 / resolution - inject_Z (py_int (gx1 sp)))%Q,
     py_int (start_x sp * 100 / resolution - inject_Z (py_int (gy1 sp)))%Q)
    (shape (obstacle_map a)).

Definition planning_window (a : PlanArgs) : window :=
  let sp := sensor_pose a in
  (py_int (gx1 sp), py_int (gx2 sp), py_int (gy1 sp), py_int (gy2 sp)).

(** [m'] is [m] with some cells set to 1. *)
Definition grows (m m' : ndarray Z) : Prop :=
  shape m' = shape m /\
  forall r c, item m' r c = item m r c \/ item m' r c = 1.

(** [m'] is [m] with some cells set to 0. *)
Definition shrinks (m m' : ndarray Z) : Prop :=
  shape m' = shape m /\
  forall r c, item m' r c = item m r c \/ item m' r c = 0.

Definition visited_grows (s s' : DiscretePlanner) : Prop :=
  grows (visited_map s) (visited_map s').

Definition collision_grows (s s' : DiscretePlanner) : Prop :=
  grows (collision_map s) (collision_map s').

Definition collision_shrinks (s s' : DiscretePlanner) : Prop :=
  shrinks (collision_map s) (collision_map s').

(** Every cell of a map holds 0 or 1. *)
Definition binary (m : ndarray Z) : Prop :=
  forall r c, item m r c = 0 \/ item m r c = 1.

(** What [reset] establishes and every call keeps. *)
Definition planner_inv (s : DiscretePlanner) : Prop :=
  shape (collision_map s) = map_shape (cfg s) /\
  shape (visited_map s) = map_shape (cfg s) /\
  binary (collision_map s) /\
  binary (visited_map s) /\
  obs_dilation_selem s = disk (curr_obs_dilation_selem_radius s) /\
  1 <= timestep s.

Definition keeps_planner_inv (s s' : DiscretePlanner) : Prop :=
  cfg s' = cfg s /\ (planner_inv s -> planner_inv s').

(** The cycle counter has advanced by at most [n]. *)
Definition advanced_by (n : Z) (s s' : DiscretePlanner) : Prop :=
  timestep s <= timestep s' <= timestep s + n.

(* ================================================================= *)
(** * Properties *)

(** ** Frames: what a computation leaves related *)

Section Frames.
Context {S : Type} (R : S -> S -> Prop).
Hypothesis R_refl : forall s, R s s.
Hypothesis R_trans : forall a b c, R a b -> R b c -> R a c.

Lemma frame_ret : forall A (a : A) s, R s (snd (ret a s)).
Proof. intros; apply R_refl. Qed.

Lemma frame_raise : forall A e s, R s (snd (@raise S A e s)).
Proof. intros; apply R_refl. Qed.

Lemma frame_lift : forall A (r : result A) s, R s (snd (lift r s)).
Proof. intros; apply R_refl. Qed.

Lemma frame_gets : forall A (f : S -> A) s, R s (snd (gets f s)).
Proof. intros; apply R_refl. Qed.

Lemma frame_bind : forall A B (m : M S A) (k : A -> M S B) s,
  R s (snd (m s)) ->
  (forall a s', m s = (Ok a, s') -> R s' (snd (k a s'))) ->
  R s (snd (bind m k s)).
Proof.
  intros A B m k s Hm Hk. unfold bind.
  destruct (m s) as [[a | e] s'] eqn:E; simpl in *.
  - eapply R_trans; [exact Hm | apply Hk; reflexivity].
  - exact Hm.
Qed.

Lemma frame_when : forall (b : bool) (m : M S unit) s,
  (b = true -> R s (snd (m s))) -> R s (snd (when b m s)).
Proof.
  intros [|] m s H; simpl; [apply H; reflexivity | apply R_refl].
Qed.

Lemma frame_for_each : forall A (body : A -> M S unit) xs s,
  (forall x s', R s' (snd (body x s'))) ->
  R s (snd (for_each xs body s)).
Proof.
  intros A body xs; induction xs as [| x xs IH]; intros s H; simpl.
  - apply R_refl.
  - apply frame_bind; [apply H | intros; apply IH, H].
Qed.

End Frames.

(** Outcomes of the primitive computations. *)
Lemma bind_ok : forall S A B (m : M S A) (k : A -> M S B) s b s'',
  bind m k s = (Ok b, s'') ->
  exists a s', m s = (Ok a, s') /\ k a s' = (Ok b, s'').
Proof.
  intros S A B m k s b s'' H. unfold bind in H.
  destruct (m s) as [[a | e] s']; [eauto | discriminate].
Qed.

Lemma bind_run : forall S A B (m : M S A) (k : A -> M S B) s a s',
  m s = (Ok a, s') -> bind m k s = k a s'.
Proof. intros S A B m k s a s' H; unfold bind; rewrite H; reflexivity. Qed.

Lemma bind_raise : forall S A B (m : M S A) (k : A -> M S B) s e s',
  m s = (Raise e, s') -> bind m k s = (Raise e, s').
Proof. intros S A B m k s e s' H; unfold bind; rewrite H; reflexivity. Qed.

(** ** [reset] *)

Lemma np_zeros_ok : forall sh,
  0 <= fst sh -> 0 <= snd sh -> np_zeros sh = Ok (np_full sh 0).
Proof.
  intros sh H1 H2. unfold np_zeros.
  destruct (fst sh <? 0) eqn:E1; [apply Z.ltb_lt in E1; lia |].
  destruct (snd sh <? 0) eqn:E2; [apply Z.ltb_lt in E2; lia |].
  reflexivity.
Qed.

Lemma reset_returns : forall s,
  0 <= map_size_cm (cfg s) / map_resolution (cfg s) ->
  reset s = (Ok tt, fresh (cfg s)).
Proof.
  intros s H. unfold reset, bind, gets, lift, modify. simpl.
  rewrite np_zeros_ok by (simpl; exact H). reflexivity.
Qed.

Lemma reset_inv : forall s s',
  reset s = (Ok tt, s') -> s' = fresh (cfg s).
Proof.
  intros s s' H. unfold reset, bind, gets, lift, modify in H. simpl in H.
  destruct (np_zeros (map_shape (cfg s))) as [cm | e] eqn:E; [| discriminate].
  unfold np_zeros in E.
  destruct ((fst (map_shape (cfg s)) <? 0) || (snd (map_shape (cfg s)) <? 0));
    [discriminate |].
  inversion E; subst cm. inversion H. reflexivity.
Qed.



(** ** What each step of a cycle leaves unchanged *)

Lemma frame_get : forall S (R : S -> S -> Prop),
  (forall s, R s s) -> forall s, R s (snd (get s)).
Proof. intros S R H s; apply H. Qed.

Lemma unchanged_refl : forall S A (f : S -> A) s, unchanged f s s.
Proof. reflexivity. Qed.

Lemma unchanged_trans : forall S A (f : S -> A) a b c,
  unchanged f a b -> unchanged f b c -> unchanged f a c.
Proof. unfold unchanged; intros; congruence. Qed.

Ltac frame_step Hrefl Htrans :=
  first
    [ apply (frame_ret _ Hrefl)
    | apply (frame_raise _ Hrefl)
    | apply (frame_lift _ Hrefl)
    | apply (frame_gets _ Hrefl)
    | apply (frame_get _ _ Hrefl)
    | apply (frame_bind _ Htrans); [| intros ? ? ?]
    | apply (frame_when _ Hrefl); intros ?
    | apply (frame_for_each _ Hrefl Htrans); intros ? ?
    | match goal with
      | |- context [match ?x with _ => _ end] => destruct x eqn:?
      end ].

Ltac frames Hrefl Htrans := repeat (frame_step Hrefl Htrans).

Ltac untouched :=
  frames (unchanged_refl _ _ _) (unchanged_trans _ _ _);
  try reflexivity.

Ltac field_frames f :=
  frames (unchanged_refl _ _ f) (unchanged_trans _ _ f);
  try (unfold modify, unchanged; simpl; auto; fail).

Section StepFrames.
Context {math : FloatMath} {fmm : FMMPlanner}.

Lemma check_collision_frame : forall A (f : DiscretePlanner -> A),
  (forall v s, f (set_collision_map v s) = f s) ->
  (forall v s, f (set_col_width v s) = f s) ->
  forall s, unchanged f s (snd (_check_collision s)).
Proof.
  intros A f Hcm Hcw s. unfold _check_collision. field_frames f.
Qed.

Lemma plan_locate_frame : forall A (f : DiscretePlanner -> A),
  (forall v s, f (set_collision_map v s) = f s) ->
  (forall v s, f (set_col_width v s) = f s) ->
  (forall v s, f (set_visited_map v s) = f s) ->
  (forall v s, f (set_last_pose v s) = f s) ->
  (forall v s, f (set_curr_pose v s) = f s) ->
  forall a s, unchanged f s (snd (plan_locate a s)).
Proof.
  intros A f Hcm Hcw Hvm Hlp Hcp a s. unfold plan_locate. field_frames f.
Qed.

Lemma get_short_term_goal_frame : forall A (f : DiscretePlanner -> A),
  (forall v s, f (set_timestep v s) = f s) ->
  forall om gm start w d s,
    unchanged f s (snd (_get_short_term_goal om gm start w d s)).
Proof.
  intros A f Hts om gm start w d s. unfold _get_short_term_goal.
  field_frames f.
Qed.

Lemma relax_obstacles_frame : forall A (f : DiscretePlanner -> A),
  (forall v s, f (set_collision_map v s) = f s) ->
  (forall r k s, f (set_obs_dilation r k s) = f s) ->
  forall s, unchanged f s (snd (relax_obstacles s)).
Proof.
  intros A f Hcm Hod s. unfold relax_obstacles. field_frames f.
Qed.

Lemma plan_act_frame : forall A (f : DiscretePlanner -> A),
  (forall v s, f (set_last_action v s) = f s) ->
  forall a l r fg s, unchanged f s (snd (plan_act a l r fg s)).
Proof.
  intros A f Hla a l r fg s. unfold plan_act. field_frames f.
Qed.

End StepFrames.

(** ** The obstacle-dilation radius within an episode *)

Lemma radius_step_refl : forall s, radius_step s s.
Proof. intros s; unfold radius_step; repeat split; lia. Qed.

Lemma radius_step_trans : forall a b c,
  radius_step a b -> radius_step b c -> radius_step a c.
Proof.
  unfold radius_step; intros a b c (Hc1 & H1 & H2) (Hc2 & H3 & H4).
  rewrite Hc1 in *. repeat split; [congruence | lia | lia].
Qed.

Ltac state_facts :=
  repeat match goal with
         | H : get _ = (Ok _, _) |- _ => inversion H; clear H; subst
         | H : gets _ _ = (Ok _, _) |- _ => inversion H; clear H; subst
         | H : modify _ _ = (Ok _, _) |- _ => inversion H; clear H; subst
         | H : lift _ _ = (Ok _, _) |- _ =>
             unfold lift in H; inversion H; clear H; subst
         | H : ret _ _ = (Ok _, _) |- _ => inversion H; clear H; subst
         | H : (_ <? _) = true |- _ => apply Z.ltb_lt in H
         end.

Section Radius.
Context {math : FloatMath} {fmm : FMMPlanner}.

Lemma plan_radius_step : forall a s, radius_step s (snd (plan a s)).
Proof.
  intros a s. unfold plan, plan_locate, plan_resolve, plan_act.
  frames radius_step_refl radius_step_trans;
    try (unfold modify, radius_step; simpl; repeat split; lia).
  all: try (apply radius_step_refl).
  all: state_facts; unfold modify, radius_step; simpl in *;
    repeat split; lia.
Qed.

Lemma run_cycles_radius_step : forall cycles s,
  radius_step s (run_cycles cycles s).
Proof.
  induction cycles as [| a cycles IH]; intros s; simpl.
  - apply radius_step_refl.
  - eapply radius_step_trans; [apply plan_radius_step | apply IH].
Qed.

Lemma run_cycles_app : forall c1 c2 s,
  run_cycles (c1 ++ c2) s = run_cycles c2 (run_cycles c1 s).
Proof. intros; unfold run_cycles; apply fold_left_app. Qed.


End Radius.

(** ** [_check_collision] *)

Lemma stall_update_width : forall w b,
  odd_upto_5 w -> odd_upto_5 (fst (fst (stall_update w b))).
Proof.
  intros w [|] [H | [H | H]]; subst; unfold odd_upto_5; simpl; auto.
Qed.

Section Collision.
Context {math : FloatMath}.

(** The poses are read only. *)
Lemma check_collision_poses : forall s,
  last_pose (snd (_check_collision s)) = last_pose s /\
  curr_pose (snd (_check_collision s)) = curr_pose s /\
  cfg (snd (_check_collision s)) = cfg s.
Proof.
  intros s; repeat split.
  - apply (check_collision_frame _ last_pose); reflexivity.
  - apply (check_collision_frame _ curr_pose); reflexivity.
  - apply (check_collision_frame _ cfg); reflexivity.
Qed.

Lemma paint_loop_col_width : forall x1 y1 t1 width buf cells s,
  col_width (snd (for_each cells (paint x1 y1 t1 width buf) s)) = col_width s.
Proof.
  intros. unfold paint.
  change (unchanged col_width s
            (snd (for_each cells
                    (fun ij => paint x1 y1 t1 width buf ij) s))).
  unfold paint. field_frames col_width.
Qed.

(** The footprint-width counter after a call. *)
Lemma check_collision_col_width : forall s x1 y1 t1 x2 y2 t2,
  last_pose s = Some (x1, y1, t1) ->
  curr_pose s = (x2, y2, t2) ->
  col_width (snd (_check_collision s))
    = fst (fst (stall_update (col_width s) (stalled x1 y1 x2 y2))).
Proof.
  intros s x1 y1 t1 x2 y2 t2 Hl Hc.
  unfold _check_collision, bind at 1, get. rewrite Hl, Hc.
  destruct (stall_update (col_width s) (stalled x1 y1 x2 y2))
    as [[w' len] buf] eqn:E.
  unfold bind, modify, gets. simpl.
  destruct (sqrt_mul_ltb _ _ _); simpl; [| reflexivity].
  rewrite paint_loop_col_width. reflexivity.
Qed.

(** Without a collision nothing but the counter changes. *)
Lemma check_collision_no_paint : forall s x1 y1 t1 x2 y2 t2,
  last_pose s = Some (x1, y1, t1) ->
  curr_pose s = (x2, y2, t2) ->
  sqrt_mul_ltb (get_l2_distance_sq x1 x2 y1 y2) 1
    (collision_threshold (cfg s)) = false ->
  _check_collision s
    = (Ok tt,
       set_col_width
         (fst (fst (stall_update (col_width s) (stalled x1 y1 x2 y2)))) s).
Proof.
  intros s x1 y1 t1 x2 y2 t2 Hl Hc Hd.
  unfold _check_collision, bind at 1, get. rewrite Hl, Hc.
  destruct (stall_update (col_width s) (stalled x1 y1 x2 y2))
    as [[w' len] buf] eqn:E.
  unfold bind, modify. simpl. rewrite Hd. reflexivity.
Qed.

End Collision.

(** Comparisons of rationals. *)
Lemma Qltb_true : forall a b, Qltb a b = true <-> (a < b)%Q.
Proof.
  intros a b. unfold Qltb. rewrite negb_true_iff.
  split; intros H.
  - apply Qnot_le_lt. intros Hle. apply Qle_bool_iff in Hle. congruence.
  - destruct (Qle_bool b a) eqn:E; [| reflexivity].
    apply Qle_bool_iff in E. exfalso. apply (Qlt_not_le _ _ H E).
Qed.

Lemma Qltb_false : forall a b, Qltb a b = false <-> (b <= a)%Q.
Proof.
  intros a b. unfold Qltb. rewrite negb_false_iff. apply Qle_bool_iff.
Qed.

(** [sqrt(s) < m] fails as soon as [m] is not positive or [m * m <= s]. *)
Lemma not_below_threshold : forall s m,
  (m <= 0 \/ m * m <= s)%Q -> sqrt_mul_ltb s 1 m = false.
Proof.
  intros s m H. unfold sqrt_mul_ltb.
  replace (Qle_bool 0 1) with true by reflexivity.
  apply andb_false_iff. destruct H as [H | H].
  - left. apply Qltb_false. exact H.
  - right. apply Qltb_false.
    assert (E : (s * 1 * 1 == s)%Q) by ring. rewrite E. exact H.
Qed.

(** On a perfect square [d * d] the comparisons decided on the squares are
    the comparisons of the product [d * k] with [m], whatever the signs. *)
Lemma square_lt_pos : forall x m : Q,
  (0 <= x -> (x < m <-> 0 < m /\ x * x < m * m))%Q.
Proof.
  intros x m Hx. split.
  - intros H. split; [lra |]. nra.
  - intros [Hm Hsq]. destruct (Qlt_le_dec x m) as [H | H]; [exact H |].
    exfalso. assert (m * m <= x * x)%Q by nra. lra.
Qed.
Lemma square_lt_neg : forall x m : Q,
  (x <= 0 -> (x < m <-> 0 < m \/ m * m < x * x))%Q.
Proof.
  intros x m Hx. split.
  - intros H. destruct (Qlt_le_dec 0 m) as [Hm | Hm]; [left; exact Hm |].
    right. nra.
  - intros [Hm | Hsq]; [lra |].
    destruct (Qlt_le_dec x m) as [H | H]; [exact H |].
    exfalso. assert (x * x <= m * m)%Q by nra. lra.
Qed.
Lemma sqrt_mul_ltb_square : forall d k m,
  (0 <= d)%Q -> sqrt_mul_ltb (d * d) k m = true <-> (d * k < m)%Q.
Proof.
  intros d k m Hd. unfold sqrt_mul_ltb.
  assert (E : (d * d * k * k == (d * k) * (d * k))%Q) by ring.
  destruct (Qle_bool 0 k) eqn:Ek.
  - apply Qle_bool_iff in Ek.
    rewrite andb_true_iff, !Qltb_true, E.
    symmetry. apply square_lt_pos. nra.
  - assert (Hk : (k < 0)%Q).
    { apply Qnot_le_lt. intros Hle. apply Qle_bool_iff in Hle. congruence. }
    rewrite orb_true_iff, !Qltb_true, E.
    symmetry. apply square_lt_neg. nra.
Qed.
Lemma sqrt_mul_gtb_square : forall d k m,
  (0 <= d)%Q -> sqrt_mul_gtb (d * d) k m = true <-> (m < d * k)%Q.
Proof.
  intros d k m Hd. unfold sqrt_mul_gtb.
  assert (E : (d * d * k * k == (d * k) * (d * k))%Q) by ring.
  assert (N : forall x y : Q, (x < y <-> - y < - x)%Q) by (intros; lra).
  assert (S : forall x : Q, (x * x == (- x) * (- x))%Q) by (intros; ring).
  destruct (Qle_bool 0 k) eqn:Ek.
  - apply Qle_bool_iff in Ek.
    rewrite orb_true_iff, !Qltb_true, E.
    rewrite (N m (d * k)%Q), (N m 0%Q), (S m), (S (d * k)%Q).
    symmetry. apply (square_lt_neg (- (d * k)) (- m))%Q. nra.
  - assert (Hk : (k < 0)%Q).
    { apply Qnot_le_lt. intros Hle. apply Qle_bool_iff in Hle. congruence. }
    rewrite andb_true_iff, !Qltb_true, E.
    rewrite (N m (d * k)%Q), (N m 0%Q), (S m), (S (d * k)%Q).
    symmetry. apply (square_lt_pos (- (d * k)) (- m))%Q. nra.
Qed.

Section NoCollision.
Context {math : FloatMath}.

(** C9: when the Euclidean displacement between the last and the current
    pose is not below the collision threshold (the threshold is not
    positive, or its square is at most the squared displacement),
    [_check_collision] returns, CollisionMap is the very same array as
    before, and the footprint-width counter is still updated by the stall
    test. *)
Theorem no_collision_no_paint : forall s x1 y1 t1 x2 y2 t2,
  last_pose s = Some (x1, y1, t1) ->
  curr_pose s = (x2, y2, t2) ->
  (collision_threshold (cfg s) <= 0 \/
   collision_threshold (cfg s) * collision_threshold (cfg s)
     <= get_l2_distance_sq x1 x2 y1 y2)%Q ->
  fst (_check_collision s) = Ok tt /\
  collision_map (snd (_check_collision s)) = collision_map s /\
  col_width (snd (_check_collision s))
    = fst (fst (stall_update (col_width s) (stalled x1 y1 x2 y2))).
Proof.
  intros s x1 y1 t1 x2 y2 t2 Hl Hc Hd.
  apply not_below_threshold in Hd.
  rewrite (check_collision_no_paint s x1 y1 t1 x2 y2 t2 Hl Hc Hd).
  simpl. repeat split.
Qed.

End NoCollision.

Lemma no_collision_no_paint_witness :
  fst (_check_collision (math:=compass_math) drifted) = Ok tt /\
  collision_map (snd (_check_collision (math:=compass_math) drifted))
    = collision_map drifted /\
  col_width (snd (_check_collision (math:=compass_math) drifted)) = 3.
Proof.
  apply (no_collision_no_paint (math:=compass_math) drifted
           (20 # 100) (50 # 100) 0 (23 # 100) (50 # 100) 0)%Q.
  - reflexivity.
  - reflexivity.
  - right. vm_compute. discriminate.
Defined.

(** ** Where [_check_collision] writes *)

Lemma painted_within_refl : forall s, painted_within s s.
Proof. intros s; repeat split; intros; left; reflexivity. Qed.

Lemma painted_within_trans : forall a b c,
  painted_within a b -> painted_within b c -> painted_within a c.
Proof.
  intros a b c (Hc1 & Hs1 & H1) (Hc2 & Hs2 & H2).
  repeat split; try congruence.
  intros r k. unfold nrows, ncols in *. rewrite Hs1 in H2.
  destruct (H2 r k) as [E | W]; [| right; exact W].
  rewrite E. apply H1.
Qed.

Lemma threshold_poses_inside : forall rc sh,
  0 < fst sh -> 0 < snd sh ->
  0 <= fst (threshold_poses rc sh) < fst sh /\
  0 <= snd (threshold_poses rc sh) < snd sh.
Proof. intros rc sh H1 H2; unfold threshold_poses; simpl; lia. Qed.

Lemma py_index_inside : forall i n, 0 <= i < n -> py_index i n = Ok i.
Proof.
  intros i n H. unfold py_index.
  destruct (0 <=? i) eqn:E1; [| apply Z.leb_gt in E1; lia].
  destruct (i <? n) eqn:E2; [| apply Z.ltb_ge in E2; lia].
  reflexivity.
Qed.

Section CollisionWrites.
Context {math : FloatMath}.

Lemma footprint_index_inside : forall res sh x1 y1 t1 width buf i j,
  res <> 0 -> 0 < fst sh -> 0 < snd sh ->
  exists r c,
    footprint_index res sh x1 y1 t1 width buf i j = Ok (r, c) /\
    0 <= r < fst sh /\ 0 <= c < snd sh.
Proof.
  intros res sh x1 y1 t1 width buf i j Hres H1 H2.
  unfold footprint_index, footprint_point, to_cell.
  destruct (res =? 0) eqn:E; [apply Z.eqb_eq in E; contradiction |].
  eexists; eexists; split; [reflexivity |].
  apply threshold_poses_inside; assumption.
Qed.

Lemma paint_inside : forall x1 y1 t1 width buf ij s,
  map_resolution (cfg s) <> 0 ->
  0 < nrows (collision_map s) -> 0 < ncols (collision_map s) ->
  exists s',
    paint x1 y1 t1 width buf ij s = (Ok tt, s') /\ painted_within s s'.
Proof.
  intros x1 y1 t1 width buf ij s Hres Hr Hc.
  destruct (footprint_index_inside (map_resolution (cfg s))
              (shape (collision_map s)) x1 y1 t1 width buf (fst ij) (snd ij)
              Hres Hr Hc) as (r & c & E & Br & Bc).
  unfold paint, bind, get, lift, modify. rewrite E. simpl.
  unfold setitem. fold (nrows (collision_map s)) in Br.
  fold (ncols (collision_map s)) in Bc.
  rewrite (py_index_inside r _ Br), (py_index_inside c _ Bc).
  eexists; split; [reflexivity |].
  repeat split. intros i k; simpl.
  destruct ((i =? r) && (k =? c)) eqn:Ew; [| left; reflexivity].
  apply andb_true_iff in Ew. destruct Ew as [Ei Ek].
  apply Z.eqb_eq in Ei. apply Z.eqb_eq in Ek. subst. right. auto.
Qed.

Lemma paint_loop_inside : forall x1 y1 t1 width buf cells s,
  map_resolution (cfg s) <> 0 ->
  0 < nrows (collision_map s) -> 0 < ncols (collision_map s) ->
  exists s',
    for_each cells (paint x1 y1 t1 width buf) s = (Ok tt, s') /\
    painted_within s s'.
Proof.
  intros x1 y1 t1 width buf cells.
  induction cells as [| ij cells IH]; intros s Hres Hr Hc; simpl.
  - exists s; split; [reflexivity | apply painted_within_refl].
  - destruct (paint_inside x1 y1 t1 width buf ij s Hres Hr Hc)
      as (s1 & E1 & P1).
    pose proof P1 as (Hc1 & Hs1 & _).
    destruct (IH s1) as (s2 & E2 & P2).
    + rewrite Hc1; exact Hres.
    + unfold nrows in *; rewrite Hs1; exact Hr.
    + unfold ncols in *; rewrite Hs1; exact Hc.
    + exists s2. split.
      * rewrite (bind_run _ _ _ _ _ _ _ _ E1). exact E2.
      * eapply painted_within_trans; eassumption.
Qed.

Lemma check_collision_returns : forall s x1 y1 t1,
  last_pose s = Some (x1, y1, t1) ->
  map_resolution (cfg s) <> 0 ->
  0 < nrows (collision_map s) ->
  0 < ncols (collision_map s) ->
  exists s', _check_collision s = (Ok tt, s') /\ painted_within s s'.
Proof.
  intros s x1 y1 t1 Hl Hres Hr Hc.
  unfold _check_collision, bind at 1, get. rewrite Hl.
  destruct (curr_pose s) as [[x2 y2] t2].
  destruct (stall_update (col_width s) (stalled x1 y1 x2 y2))
    as [[w' len] buf].
  unfold bind at 1, modify at 1.
  destruct (sqrt_mul_ltb _ _ _).
  - unfold bind at 1, gets. simpl col_width.
    destruct (paint_loop_inside x1 y1 t1 w' buf (footprint_cells len w')
                (set_col_width w' s) Hres Hr Hc) as (s' & E & P).
    exists s'. split; [exact E | exact P].
  - exists (set_col_width w' s). split; [reflexivity |].
    apply (painted_within_refl (set_col_width w' s)).
Qed.

(** C8: on a planner whose CollisionMap has at least one row and one
    column (and whose resolution is not zero), whatever the last pose, the
    current pose and the heading: every index [_check_collision] computes
    for a write lies inside the map, the call returns (no index fault), the
    map keeps its shape, and a cell either keeps its value or is a cell
    inside the map that now holds 1. *)
Theorem collision_writes_in_bounds : forall s x1 y1 t1,
  last_pose s = Some (x1, y1, t1) ->
  map_resolution (cfg s) <> 0 ->
  0 < nrows (collision_map s) ->
  0 < ncols (collision_map s) ->
  (forall width buf i j, exists r c,
      footprint_index (map_resolution (cfg s)) (shape (collision_map s))
        x1 y1 t1 width buf i j = Ok (r, c) /\
      0 <= r < nrows (collision_map s) /\
      0 <= c < ncols (collision_map s)) /\
  fst (_check_collision s) = Ok tt /\
  shape (collision_map (snd (_check_collision s)))
    = shape (collision_map s) /\
  (forall r c,
      item (collision_map (snd (_check_collision s))) r c
        = item (collision_map s) r c \/
      (0 <= r < nrows (collision_map s) /\
       0 <= c < ncols (collision_map s) /\
       item (collision_map (snd (_check_collision s))) r c = 1)).
Proof.
  intros s x1 y1 t1 Hl Hres Hr Hc. split.
  { intros. apply footprint_index_inside; assumption. }
  destruct (check_collision_returns s x1 y1 t1 Hl Hres Hr Hc)
    as (s' & E & (_ & Hs & Hw)).
  rewrite E. simpl. repeat split; assumption.
Qed.

End CollisionWrites.

Lemma collision_writes_in_bounds_witness :
  (forall width buf i j, exists r c,
      footprint_index (math:=compass_math) 5 (20, 20)
        (20 # 100) (50 # 100) 0 width buf i j = Ok (r, c) /\
      0 <= r < 20 /\ 0 <= c < 20) /\
  fst (_check_collision (math:=compass_math) stuck) = Ok tt /\
  shape (collision_map (snd (_check_collision (math:=compass_math) stuck)))
    = (20, 20) /\
  (forall r c,
      item (collision_map (snd (_check_collision (math:=compass_math) stuck)))
        r c = 0 \/
      (0 <= r < 20 /\ 0 <= c < 20 /\
       item (collision_map (snd (_check_collision (math:=compass_math) stuck)))
         r c = 1)).
Proof.
  apply (collision_writes_in_bounds (math:=compass_math) stuck
           (20 # 100) (50 # 100) 0)%Q.
  - reflexivity.
  - discriminate.
  - reflexivity.
  - reflexivity.
Defined.

(** ** The footprint-width counter *)

Section Stalls.
Context {math : FloatMath}.



(** One call: a counter among 1, 3 and 5 stays among them. *)
Lemma check_collision_odd_upto_5 : forall s,
  odd_upto_5 (col_width s) ->
  odd_upto_5 (col_width (snd (_check_collision s))).
Proof.
  intros s H.
  destruct (last_pose s) as [[[x1 y1] t1] |] eqn:El.
  - destruct (curr_pose s) as [[x2 y2] t2] eqn:Ec.
    rewrite (check_collision_col_width s x1 y1 t1 x2 y2 t2 El Ec).
    apply stall_update_width. exact H.
  - unfold _check_collision, bind, get. rewrite El. exact H.
Qed.

End Stalls.


(** The cells painted by four stalls in a row of a robot at cell (10, 4)
    heading along the columns: 3 rows by 2 columns ahead, then 5 by 2, then
    5 by 4 one cell nearer (the extended footprint), and again. *)
Example stall_footprints :
  map (fun k => painted (collision_map
                           (check_collisions (math:=compass_math) k stuck)))
      [1; 2; 3; 4]%nat
  = [ [(9, 8); (9, 9); (10, 8); (10, 9); (11, 8); (11, 9)];
      [(8, 8); (8, 9); (9, 8); (9, 9); (10, 8); (10, 9); (11, 8); (11, 9);
       (12, 8); (12, 9)];
      [(8, 7); (8, 8); (8, 9); (8, 10); (9, 7); (9, 8); (9, 9); (9, 10);
       (10, 7); (10, 8); (10, 9); (10, 10); (11, 7); (11, 8); (11, 9);
       (11, 10); (12, 7); (12, 8); (12, 9); (12, 10)];
      [(8, 7); (8, 8); (8, 9); (8, 10); (9, 7); (9, 8); (9, 9); (9, 10);
       (10, 7); (10, 8); (10, 9); (10, 10); (11, 7); (11, 8); (11, 9);
       (11, 10); (12, 7); (12, 8); (12, 9); (12, 10)] ].
Proof. vm_compute. reflexivity. Qed.

(** ** The counter on every reachable planner *)

Lemma keeps_odd_refl : forall s, keeps_odd_upto_5 s s.
Proof. intros s H; exact H. Qed.

Lemma keeps_odd_trans : forall a b c,
  keeps_odd_upto_5 a b -> keeps_odd_upto_5 b c -> keeps_odd_upto_5 a c.
Proof. unfold keeps_odd_upto_5; auto. Qed.

Section Counter.
Context {math : FloatMath} {fmm : FMMPlanner}.

Lemma plan_odd_upto_5 : forall a s, keeps_odd_upto_5 s (snd (plan a s)).
Proof.
  intros a s. unfold plan, plan_locate, plan_resolve, plan_act.
  frames keeps_odd_refl keeps_odd_trans;
    try (unfold modify, keeps_odd_upto_5; simpl; intros; assumption).
  all: try (apply keeps_odd_refl).
  all: state_facts; unfold modify, keeps_odd_upto_5; simpl in *; intros Hodd.
  all: match goal with
       | E : stall_update ?w ?b = (?z, _, _) |- odd_upto_5 ?z =>
           change z with (fst (fst (z, 0, 0)));
           pose proof (stall_update_width w b Hodd) as Hw;
           rewrite E in Hw; exact Hw
       end.
Qed.

(** C10: on every planner a caller can observe, after a [reset] and after
    any further calls of [plan] or [_check_collision], returned or raised,
    the footprint-width counter is 1, 3 or 5: it is odd and at most 5. *)
Theorem col_width_values : forall s,
  reachable s ->
  (col_width s = 1 \/ col_width s = 3 \/ col_width s = 5) /\
  Z.odd (col_width s) = true /\
  col_width s <= 5.
Proof.
  intros s H.
  assert (Hodd : odd_upto_5 (col_width s)).
  { induction H as [s s' Hr | s a H IH | s H IH].
    - apply reset_inv in Hr. subst s'. left. reflexivity.
    - apply plan_odd_upto_5. exact IH.
    - apply check_collision_odd_upto_5. exact IH. }
  split; [exact Hodd |].
  destruct Hodd as [E | [E | E]]; rewrite E; split; (reflexivity || lia).
Qed.

End Counter.

(** ** [_get_short_term_goal], when it returns *)

Ltac fields_in_all :=
  unfold set_collision_map, set_visited_map, set_col_width, set_last_pose,
    set_curr_pose, set_last_action, set_timestep, set_obs_dilation in *;
  cbn [cfg collision_map visited_map col_width last_pose curr_pose
       last_action timestep curr_obs_dilation_selem_radius
       obs_dilation_selem fst snd] in *.

Ltac run_inv H :=
  unfold when in H;
  unfold bind, get, gets, lift, modify, ret, raise in H;
  simpl negb in H;
  repeat match goal with
         | E : (_, _) = (_, _) |- _ => inversion E; clear E; subst
         | E : Ok _ = Ok _ |- _ => inversion E; clear E; subst
         | E : context [match ?x with _ => _ end] |- _ =>
             destruct x eqn:?; try discriminate E
         end.

Section Resolver.
Context {math : FloatMath} {fmm : FMMPlanner}.

(** A run that returns has advanced the cycle counter by one and touched
    nothing else; in the precise mode its [stop] flag is the metric test on
    the closest-goal cell. *)
Lemma get_short_term_goal_ok : forall om gm start w d s r s',
  _get_short_term_goal om gm start w d s = (Ok r, s') ->
  s' = set_timestep (timestep s + 1) s /\
  (d = false ->
   stop r = sqrt_mul_ltb (norm_sq start (closest_goal_pt r))
              (inject_Z (map_resolution (cfg s)))
              (min_goal_distance_cm (cfg s))).
Proof.
  intros om gm start w d s r s' H.
  unfold _get_short_term_goal in H.
  destruct d; run_inv H; split; try reflexivity; intros; try discriminate;
    reflexivity.
Qed.

End Resolver.

(** ** The steps of [plan], when they return *)

Section PlanSteps.
Context {math : FloatMath} {fmm : FMMPlanner}.

Lemma plan_locate_ok : forall a s l s1,
  plan_locate a s = (Ok l, s1) ->
  l = mk_Located (np_map np_rint (obstacle_map a)) (agent_cell a s)
        (planning_window a) /\
  last_pose s1 = Some (curr_pose s) /\
  curr_pose s1 = (start_x (sensor_pose a), start_y (sensor_pose a),
                  start_o (sensor_pose a)) /\
  visited_map s1
    = view_fill (visited_map s)
        (window_view (visited_map s) (planning_window a)
           (fst (agent_cell a s) - 0) (fst (agent_cell a s) + 1)
           (snd (agent_cell a s) - 0) (snd (agent_cell a s) + 1)) 1 /\
  timestep s1 = timestep s /\
  last_action s1 = last_action s /\
  curr_obs_dilation_selem_radius s1 = curr_obs_dilation_selem_radius s /\
  obs_dilation_selem s1 = obs_dilation_selem s /\
  cfg s1 = cfg s.
Proof.
  intros a s l s1 H. unfold plan_locate in H. run_inv H.
  all: repeat match goal with
         | E : _check_collision ?st = (_, ?st') |- _ =>
             let P := fresh "P" in
             pose proof (check_collision_poses st) as P;
             pose proof (check_collision_frame _ visited_map
                           (fun _ _ => eq_refl) (fun _ _ => eq_refl) st);
             pose proof (check_collision_frame _ timestep
                           (fun _ _ => eq_refl) (fun _ _ => eq_refl) st);
             pose proof (check_collision_frame _ last_action
                           (fun _ _ => eq_refl) (fun _ _ => eq_refl) st);
             pose proof (check_collision_frame _ curr_obs_dilation_selem_radius
                           (fun _ _ => eq_refl) (fun _ _ => eq_refl) st);
             pose proof (check_collision_frame _ obs_dilation_selem
                           (fun _ _ => eq_refl) (fun _ _ => eq_refl) st);
             unfold unchanged in *;
             rewrite E in *; simpl snd in *; clear E
         end.
  all: fields_in_all; unfold agent_cell, planning_window, window_view;
    intuition congruence.
Qed.

Lemma plan_resolve_ok : forall a l s1 r fg s2,
  plan_resolve a l s1 = (Ok (r, fg), s2) ->
  exists r1,
    _get_short_term_goal (obstacles_of l) (goal_map a) (start_of l)
      (window_of l) (use_dilation_for_stg a) s1
      = (Ok r1, set_timestep (timestep s1 + 1) s1) /\
    timestep s2
      = timestep s1
        + (if replan r1 && negb (stop r1) && found_goal a then 2 else 1) /\
    (fg && stop r = true -> found_goal a = true /\ stop r1 = true).
Proof.
  intros a l s1 r fg s2 H. unfold plan_resolve in H.
  apply bind_ok in H. destruct H as (r1 & s' & E1 & H).
  destruct (get_short_term_goal_ok _ _ _ _ _ _ _ _ E1) as (Es' & _).
  subst s'. exists r1. split; [exact E1 |].
  destruct (replan r1 && negb (stop r1)) eqn:Hfail; simpl andb.
  - apply bind_ok in H. destruct H as ([] & s'' & E2 & H).
    pose proof (relax_obstacles_frame _ timestep
                  (fun _ _ => eq_refl) (fun _ _ _ => eq_refl)
                  (set_timestep (timestep s1 + 1) s1)) as Ht.
    unfold unchanged in Ht. rewrite E2 in Ht. simpl in Ht.
    destruct (found_goal a) eqn:Hfound.
    + apply bind_ok in H. destruct H as (r' & s3 & E3 & H).
      destruct (get_short_term_goal_ok _ _ _ _ _ _ _ _ E3) as (Es3 & _).
      inversion H; subst. simpl. split; [lia |].
      intros Habs; discriminate Habs.
    + inversion H; subst. split; [exact Ht |].
      intros Habs; discriminate Habs.
  - inversion H; subst. simpl. split; [reflexivity |].
    intros Hs. apply andb_true_iff in Hs. exact Hs.
Qed.

Lemma decide_stop : forall ta ra rag fg st,
  decide ta ra rag fg st = STOP -> fg && st = true.
Proof.
  intros ta ra rag fg st H. unfold decide in H.
  destruct (fg && st); [reflexivity |]. simpl in H.
  destruct (Qltb (ta / 2) ra); [discriminate |].
  destruct (Qltb ra (- ta / 2)); discriminate.
Qed.

Lemma plan_act_ok : forall a l r fg s act m s',
  plan_act a l r fg s = (Ok (act, m), s') ->
  s' = set_last_action (Some act) s /\
  m = closest_goal_map r /\
  np_nonzero (closest_goal_map r) <> [] /\
  (act = STOP -> fg && stop r = true).
Proof.
  intros a l r fg s act m s' H. unfold plan_act in H.
  destruct (np_nonzero (closest_goal_map r)) as [| g gs] eqn:Eg.
  - run_inv H.
  - run_inv H. repeat split; try discriminate. apply decide_stop.
Qed.

(** Sampling the orientation target from an empty closest-goal mask raises,
    with the planner left as the resolver left it. *)
Lemma plan_act_empty_mask : forall a l r fg s,
  np_nonzero (closest_goal_map r) = [] ->
  plan_act a l r fg s = (Raise ValueError, s).
Proof.
  intros a l r fg s H. unfold plan_act, bind, get, lift.
  destruct (short_term_goal r) as [stg_x stg_y]. rewrite H. reflexivity.
Qed.

Lemma plan_empty_mask_raises : forall a s l s1 r fg s2,
  plan_locate a s = (Ok l, s1) ->
  plan_resolve a l s1 = (Ok (r, fg), s2) ->
  np_nonzero (closest_goal_map r) = [] ->
  plan a s = (Raise ValueError, s2).
Proof.
  intros a s l s1 r fg s2 H1 H2 H3. unfold plan.
  rewrite (bind_run _ _ _ _ _ _ _ _ H1).
  rewrite (bind_run _ _ _ _ _ _ _ _ H2).
  apply plan_act_empty_mask. exact H3.
Qed.

Lemma plan_ok : forall a s act m s',
  plan a s = (Ok (act, m), s') ->
  exists l s1 r fg s2,
    plan_locate a s = (Ok l, s1) /\
    plan_resolve a l s1 = (Ok (r, fg), s2) /\
    plan_act a l r fg s2 = (Ok (act, m), s').
Proof.
  intros a s act m s' H. unfold plan in H.
  apply bind_ok in H. destruct H as (l & s1 & E1 & H).
  apply bind_ok in H. destruct H as ([r fg] & s2 & E2 & H).
  exists l, s1, r, fg, s2. auto.
Qed.

End PlanSteps.

(** ** What one call of [plan] does to the planner *)

Section PlanEffects.
Context {math : FloatMath} {fmm : FMMPlanner}.

Lemma relax_obstacles_run : forall s,
  relax_obstacles s
  = (Ok tt,
     let s' := set_collision_map
                 (np_map (fun v => v * 0) (collision_map s)) s in
     if min_obs_dilation_selem_radius (cfg s)
          <? curr_obs_dilation_selem_radius s
     then set_obs_dilation (curr_obs_dilation_selem_radius s - 1)
            (disk (curr_obs_dilation_selem_radius s - 1)) s'
     else s').
Proof.
  intros s. unfold relax_obstacles, bind, gets, get, modify, when. simpl.
  destruct (min_obs_dilation_selem_radius (cfg s)
              <? curr_obs_dilation_selem_radius s); reflexivity.
Qed.

Lemma plan_resolve_frame : forall A (f : DiscretePlanner -> A),
  (forall v s, f (set_timestep v s) = f s) ->
  (forall v s, f (set_collision_map v s) = f s) ->
  (forall r k s, f (set_obs_dilation r k s) = f s) ->
  forall a l s, unchanged f s (snd (plan_resolve a l s)).
Proof.
  intros A f Hts Hcm Hod a l s.
  unfold plan_resolve, relax_obstacles, _get_short_term_goal.
  field_frames f.
Qed.

(** What the short-term goal stage leaves of the radius and of
    CollisionMap. *)
Lemma plan_resolve_relaxes : forall a l s1 r fg s2 r1 s1',
  plan_resolve a l s1 = (Ok (r, fg), s2) ->
  _get_short_term_goal (obstacles_of l) (goal_map a) (start_of l)
    (window_of l) (use_dilation_for_stg a) s1 = (Ok r1, s1') ->
  curr_obs_dilation_selem_radius s2
    = curr_obs_dilation_selem_radius s1
      - (if replan r1 && negb (stop r1)
            && (min_obs_dilation_selem_radius (cfg s1)
                  <? curr_obs_dilation_selem_radius s1)
         then 1 else 0) /\
  (replan r1 && negb (stop r1) = true ->
   forall i j, item (collision_map s2) i j = 0) /\
  (replan r1 && negb (stop r1) = false ->
   collision_map s2 = collision_map s1).
Proof.
  intros a l s1 r fg s2 r1 s1' H E1. unfold plan_resolve in H.
  rewrite (bind_run _ _ _ _ _ _ _ _ E1) in H.
  destruct (get_short_term_goal_ok _ _ _ _ _ _ _ _ E1) as (Es' & _).
  subst s1'.
  destruct (replan r1 && negb (stop r1)) eqn:Hfail; simpl andb.
  - rewrite (bind_run _ _ _ _ _ _ _ _ (relax_obstacles_run _)) in H.
    fields_in_all.
    assert (Hs2 : exists t,
               s2 = set_timestep t
                      (let s' := set_collision_map
                                   (np_map (fun v => v * 0) (collision_map s1))
                                   (set_timestep (timestep s1 + 1) s1) in
                       if min_obs_dilation_selem_radius (cfg s1)
                            <? curr_obs_dilation_selem_radius s1
                       then set_obs_dilation
                              (curr_obs_dilation_selem_radius s1 - 1)
                              (disk (curr_obs_dilation_selem_radius s1 - 1)) s'
                       else s')).
    { destruct (found_goal a).
      - apply bind_ok in H. destruct H as (r' & s3 & E3 & H).
        destruct (get_short_term_goal_ok _ _ _ _ _ _ _ _ E3) as (Es3 & _).
        inversion H; subst. eexists. unfold set_timestep at 1. reflexivity.
      - inversion H; subst. exists (timestep s1 + 1).
        destruct (min_obs_dilation_selem_radius (cfg s1)
                    <? curr_obs_dilation_selem_radius s1); reflexivity. }
    destruct Hs2 as (t & Hs2). subst s2.
    destruct (min_obs_dilation_selem_radius (cfg s1)
                <? curr_obs_dilation_selem_radius s1);
      simpl; repeat split; intros; try lia; try discriminate.
  - inversion H; subst. simpl. repeat split; intros; try lia; try discriminate.
Qed.

End PlanEffects.

Section CycleCounter.
Context {math : FloatMath} {fmm : FMMPlanner}.

(** C2, as the code has it: a call of [plan] that returns has shifted the
    pose history once (the last pose is the former current pose, the
    current pose is the sensor pose), marked the agent's cell in VisitedMap,
    stored the returned action as last action, lowered the dilation radius
    by one exactly when the first short-term goal signalled a failed plan
    with the radius above its minimum (and then cleared CollisionMap), and
    advanced the cycle counter once per run of [_get_short_term_goal]: by 1
    when the frontier fallback does not run and by 2 when it does. *)
Theorem plan_state_effects : forall a s act m s',
  plan a s = (Ok (act, m), s') ->
  last_pose s' = Some (curr_pose s) /\
  curr_pose s' = (start_x (sensor_pose a), start_y (sensor_pose a),
                  start_o (sensor_pose a)) /\
  visited_map s'
    = view_fill (visited_map s)
        (window_view (visited_map s) (planning_window a)
           (fst (agent_cell a s) - 0) (fst (agent_cell a s) + 1)
           (snd (agent_cell a s) - 0) (snd (agent_cell a s) + 1)) 1 /\
  last_action s' = Some act /\
  curr_obs_dilation_selem_radius s'
    = curr_obs_dilation_selem_radius s
      - (if plan_fails a s
            && (min_obs_dilation_selem_radius (cfg s)
                  <? curr_obs_dilation_selem_radius s)
         then 1 else 0) /\
  (plan_fails a s = true -> forall i j, item (collision_map s') i j = 0) /\
  timestep s' = timestep s + (if fallback_runs a s then 2 else 1) /\
  cfg s' = cfg s.
Proof.
  intros a s act m s' H.
  destruct (plan_ok a s act m s' H) as (l & s1 & r & fg & s2 & E1 & E2 & E3).
  destruct (plan_locate_ok a s l s1 E1)
    as (_ & Hlp & Hcp & Hvm & Hts & _ & Hrad & _ & Hcfg).
  destruct (plan_resolve_ok a l s1 r fg s2 E2) as (r1 & Er1 & Hts2 & _).
  destruct (plan_resolve_relaxes a l s1 r fg s2 r1 _ E2 Er1)
    as (Hrad2 & Hcm2 & _).
  destruct (plan_act_ok a l r fg s2 act m s' E3) as (Es' & _).
  assert (Hfails : plan_fails a s = replan r1 && negb (stop r1)).
  { unfold plan_fails, first_goal. rewrite E1, Er1. reflexivity. }
  unfold fallback_runs. rewrite Hfails.
  pose proof (plan_resolve_frame _ last_pose (fun _ _ => eq_refl)
                (fun _ _ => eq_refl) (fun _ _ _ => eq_refl) a l s1) as F1.
  pose proof (plan_resolve_frame _ curr_pose (fun _ _ => eq_refl)
                (fun _ _ => eq_refl) (fun _ _ _ => eq_refl) a l s1) as F2.
  pose proof (plan_resolve_frame _ visited_map (fun _ _ => eq_refl)
                (fun _ _ => eq_refl) (fun _ _ _ => eq_refl) a l s1) as F3.
  pose proof (plan_resolve_frame _ cfg (fun _ _ => eq_refl)
                (fun _ _ => eq_refl) (fun _ _ _ => eq_refl) a l s1) as F4.
  unfold unchanged in *. rewrite E2 in *. simpl snd in *.
  subst s'. simpl.
  rewrite F1, F2, F3, F4, Hrad2, Hts2, Hcfg, Hrad, Hts.
  repeat split; try assumption.
Qed.

End CycleCounter.

(** ** STOP and the goal-acceptance distance *)

(** [sqrt(s) * k < m] fails for [0 <= k] as soon as [m] is not positive or
    [m * m <= s * k * k]. *)
Lemma not_within_distance : forall s k m,
  (0 <= k)%Q -> (m <= 0 \/ m * m <= s * k * k)%Q ->
  sqrt_mul_ltb s k m = false.
Proof.
  intros s k m Hk H. unfold sqrt_mul_ltb.
  apply Qle_bool_iff in Hk. rewrite Hk.
  apply andb_false_iff. destruct H as [H | H].
  - left. apply Qltb_false. exact H.
  - right. apply Qltb_false. exact H.
Qed.

Section Stop.
Context {math : FloatMath} {fmm : FMMPlanner}.

(** C7, in the precise mode ([use_dilation_for_stg] false, the default):
    when the metric distance from the agent's cell to the closest-goal cell
    of the call (their distance in cells times the resolution) is at or
    above the minimum goal-acceptance distance, [plan] does not return
    STOP, whatever [found_goal] is. *)
Theorem no_stop_beyond_goal_distance : forall a s start r1,
  use_dilation_for_stg a = false ->
  first_goal a s = Ok (start, r1) ->
  0 <= map_resolution (cfg s) ->
  (min_goal_distance_cm (cfg s) <= 0 \/
   min_goal_distance_cm (cfg s) * min_goal_distance_cm (cfg s)
     <= norm_sq start (closest_goal_pt r1)
        * inject_Z (map_resolution (cfg s))
        * inject_Z (map_resolution (cfg s)))%Q ->
  forall m s', plan a s <> (Ok (STOP, m), s').
Proof.
  intros a s start r1 Hmode Hfirst Hres Hdist m s' H.
  destruct (plan_ok a s STOP m s' H) as (l & s1 & r & fg & s2 & E1 & E2 & E3).
  destruct (plan_locate_ok a s l s1 E1) as (_ & _ & _ & _ & _ & _ & _ & _ & Hcfg).
  destruct (plan_resolve_ok a l s1 r fg s2 E2) as (r1' & Er1 & _ & Hstop).
  destruct (plan_act_ok a l r fg s2 STOP m s' E3) as (_ & _ & _ & Hact).
  unfold first_goal in Hfirst. rewrite E1, Er1 in Hfirst.
  inversion Hfirst; subst start r1'. clear Hfirst.
  destruct (Hstop (Hact eq_refl)) as (_ & Hs1).
  rewrite Hmode in Er1.
  destruct (get_short_term_goal_ok _ _ _ _ _ _ _ _ Er1) as (_ & Hprecise).
  rewrite (Hprecise eq_refl), Hcfg in Hs1.
  rewrite not_within_distance in Hs1; [discriminate | | exact Hdist].
  rewrite <- (Qle_bool_iff 0). unfold Qle_bool. simpl.
  apply Z.leb_le. lia.
Qed.

End Stop.

(** ** The agent's cell in the traversability grid *)




Lemma py_slice_length : forall a b n, 0 <= snd (py_slice a b n).
Proof. intros; unfold py_slice; simpl; lia. Qed.

Lemma subview_sizes : forall v a b c d,
  0 <= vrows (subview v a b c d) /\ 0 <= vcols (subview v a b c d).
Proof.
  intros v a b c d. unfold subview.
  pose proof (py_slice_length a b (vrows v)).
  pose proof (py_slice_length c d (vcols v)).
  destruct (py_slice a b (vrows v)), (py_slice c d (vcols v)); simpl in *.
  lia.
Qed.





Section AgentCell.
Context {math : FloatMath} {fmm : FMMPlanner}.

(** Between the two runs of [_get_short_term_goal] of a cycle VisitedMap
    stays as lines 153-179 left it. *)
Lemma fallback_keeps_visited_map : forall om gm start w d s1,
  visited_map
    (snd (relax_obstacles (snd (_get_short_term_goal om gm start w d s1))))
  = visited_map s1.
Proof.
  intros om gm start w d s1.
  pose proof (get_short_term_goal_frame _ visited_map (fun _ _ => eq_refl)
                om gm start w d s1) as H1.
  pose proof (relax_obstacles_frame _ visited_map (fun _ _ => eq_refl)
                (fun _ _ _ => eq_refl)
                (snd (_get_short_term_goal om gm start w d s1))) as H2.
  unfold unchanged in *. congruence.
Qed.


End AgentCell.

(** ** Replays *)


(** The radius of the room's planner over two cycles: 2, then 1, then 1. *)
Example radius_replay :
  map curr_obs_dilation_selem_radius
    [room;
     run_cycles (math:=compass_math) (fmm:=OpenGrid.engine)
       [far_goal_cycle] room;
     run_cycles (math:=compass_math) (fmm:=OpenGrid.engine)
       [far_goal_cycle; far_goal_cycle] room]
  = [2; 1; 1].
Proof. vm_compute. reflexivity. Qed.

Lemma col_width_values_witness :
  (col_width
     (snd (_check_collision (math:=compass_math)
             (snd (plan (math:=compass_math) (fmm:=OpenGrid.engine)
                     far_goal_cycle
                     (snd (plan (math:=compass_math) (fmm:=OpenGrid.engine)
                             far_goal_cycle room)))))) = 1 \/
   col_width
     (snd (_check_collision (math:=compass_math)
             (snd (plan (math:=compass_math) (fmm:=OpenGrid.engine)
                     far_goal_cycle
                     (snd (plan (math:=compass_math) (fmm:=OpenGrid.engine)
                             far_goal_cycle room)))))) = 3 \/
   col_width
     (snd (_check_collision (math:=compass_math)
             (snd (plan (math:=compass_math) (fmm:=OpenGrid.engine)
                     far_goal_cycle
                     (snd (plan (math:=compass_math) (fmm:=OpenGrid.engine)
                             far_goal_cycle room)))))) = 5) /\
  Z.odd
    (col_width
       (snd (_check_collision (math:=compass_math)
               (snd (plan (math:=compass_math) (fmm:=OpenGrid.engine)
                       far_goal_cycle
                       (snd (plan (math:=compass_math) (fmm:=OpenGrid.engine)
                               far_goal_cycle room))))))) = true /\
  col_width
    (snd (_check_collision (math:=compass_math)
            (snd (plan (math:=compass_math) (fmm:=OpenGrid.engine)
                    far_goal_cycle
                    (snd (plan (math:=compass_math) (fmm:=OpenGrid.engine)
                            far_goal_cycle room)))))) <= 5.
Proof.
  apply (col_width_values (math:=compass_math) (fmm:=OpenGrid.engine)).
  apply reach_check. apply reach_plan. apply reach_plan.
  apply (reach_reset room room). reflexivity.
Defined.

(** That planner's counter is 3: the second cycle did not move the agent. *)
Example col_width_replay :
  col_width
    (snd (_check_collision (math:=compass_math)
            (snd (plan (math:=compass_math) (fmm:=OpenGrid.engine)
                    far_goal_cycle
                    (snd (plan (math:=compass_math) (fmm:=OpenGrid.engine)
                            far_goal_cycle room)))))) = 3.
Proof. vm_compute. reflexivity. Qed.

(** C1, on the code: the call [no_goal_cycle] on the room's planner (no
    goal cell, the agent at the corner cell, so that the cells nearest to
    the agent's seed all lie on the boundary frame) reaches the sampling of
    the orientation target with [found_goal] and [stop] set and a
    closest-goal mask that has no set cell, and [plan] raises the
    ValueError of [np.random.randint(0)] instead of returning an action. *)
Theorem empty_closest_goal_mask_raises :
  match resolved (math:=compass_math) (fmm:=OpenGrid.engine)
          no_goal_cycle room with
  | Ok (r, fg) => np_nonzero (closest_goal_map r) = [] /\ fg && stop r = true
  | Raise _ => False
  end /\
  fst (plan (math:=compass_math) (fmm:=OpenGrid.engine) no_goal_cycle room)
    = Raise ValueError.
Proof. vm_compute. repeat split. Qed.

(** C2 as stated fails: on the cycle [far_goal_cycle] the frontier fallback
    runs, [plan] returns, and the cycle counter has gone from 1 to 3. *)
Lemma fallback_counts_twice :
  observe (plan (math:=compass_math) (fmm:=OpenGrid.engine)
             far_goal_cycle room)
    = (Ok (TURN_RIGHT, [(0, 2)]), 3, 1, 1) /\
  fallback_runs (math:=compass_math) (fmm:=OpenGrid.engine)
    far_goal_cycle room = true /\
  timestep room = 1 /\
  timestep (snd (plan (math:=compass_math) (fmm:=OpenGrid.engine)
                   far_goal_cycle room))
    <> timestep room + 1.
Proof. vm_compute. repeat split. discriminate. Qed.

Lemma plan_state_effects_witness :
  last_pose
    (snd (plan (math:=compass_math) (fmm:=OpenGrid.engine)
            far_goal_cycle room))
    = Some (curr_pose room) /\
  curr_pose
    (snd (plan (math:=compass_math) (fmm:=OpenGrid.engine)
            far_goal_cycle room))
    = (0%Q, (5 # 100)%Q, 0%Q) /\
  visited_map
    (snd (plan (math:=compass_math) (fmm:=OpenGrid.engine)
            far_goal_cycle room))
    = view_fill (visited_map room)
        (window_view (visited_map room) (planning_window far_goal_cycle)
           (fst (agent_cell far_goal_cycle room) - 0)
           (fst (agent_cell far_goal_cycle room) + 1)
           (snd (agent_cell far_goal_cycle room) - 0)
           (snd (agent_cell far_goal_cycle room) + 1)) 1 /\
  last_action
    (snd (plan (math:=compass_math) (fmm:=OpenGrid.engine)
            far_goal_cycle room))
    = Some TURN_RIGHT /\
  curr_obs_dilation_selem_radius
    (snd (plan (math:=compass_math) (fmm:=OpenGrid.engine)
            far_goal_cycle room))
    = curr_obs_dilation_selem_radius room
      - (if plan_fails (math:=compass_math) (fmm:=OpenGrid.engine)
              far_goal_cycle room
            && (min_obs_dilation_selem_radius (cfg room)
                  <? curr_obs_dilation_selem_radius room)
         then 1 else 0) /\
  (plan_fails (math:=compass_math) (fmm:=OpenGrid.engine)
     far_goal_cycle room = true ->
   forall i j,
     item (collision_map
             (snd (plan (math:=compass_math) (fmm:=OpenGrid.engine)
                     far_goal_cycle room))) i j = 0) /\
  timestep
    (snd (plan (math:=compass_math) (fmm:=OpenGrid.engine)
            far_goal_cycle room))
    = timestep room
      + (if fallback_runs (math:=compass_math) (fmm:=OpenGrid.engine)
              far_goal_cycle room
         then 2 else 1) /\
  cfg (snd (plan (math:=compass_math) (fmm:=OpenGrid.engine)
              far_goal_cycle room))
    = cfg room.
Proof.
  apply (plan_state_effects (math:=compass_math) (fmm:=OpenGrid.engine)
           far_goal_cycle room TURN_RIGHT
           (returned_mask
              (plan (math:=compass_math) (fmm:=OpenGrid.engine)
                 far_goal_cycle room))).
  vm_compute. reflexivity.
Defined.

(** C7 as stated fails with [use_dilation_for_stg]: on [dilated_cycle] the
    goal was found, the agent's cell is (1, 0), the closest-goal cell is
    (1, 2), two cells or 10 cm away with a goal-acceptance distance of
    5 cm, and [plan] returns STOP, on the engine's own [stop] flag. *)
Lemma stop_beyond_goal_distance_when_dilating :
  found_goal dilated_cycle = true /\
  match first_goal (math:=compass_math) (fmm:=OpenGrid.engine)
          dilated_cycle room with
  | Ok (start, r1) => start = (1, 0) /\ closest_goal_pt r1 = (1, 2)
  | Raise _ => False
  end /\
  (min_goal_distance_cm (cfg room) * min_goal_distance_cm (cfg room)
     <= norm_sq (1, 0)%Z (1, 2)%Z * inject_Z (map_resolution (cfg room))
        * inject_Z (map_resolution (cfg room)))%Q /\
  observe (plan (math:=compass_math) (fmm:=OpenGrid.engine)
             dilated_cycle room)
    = (Ok (STOP, [(1, 2)]), 2, 2, 1).
Proof.
  split; [reflexivity |].
  split; [vm_compute; split; reflexivity |].
  split; [vm_compute; discriminate |].
  vm_compute. reflexivity.
Qed.

Lemma no_stop_beyond_goal_distance_witness :
  observe (plan (math:=compass_math) (fmm:=OpenGrid.engine)
             far_goal_cycle room)
    = (Ok (TURN_RIGHT, [(0, 2)]), 3, 1, 1) /\
  ~ (exists m s',
        plan (math:=compass_math) (fmm:=OpenGrid.engine) far_goal_cycle room
          = (Ok (STOP, m), s')).
Proof.
  split; [vm_compute; reflexivity |].
  intros (m & s' & H). revert H.
  apply (no_stop_beyond_goal_distance (math:=compass_math)
           (fmm:=OpenGrid.engine) far_goal_cycle room (1, 0)
           (goal_in (first_goal (math:=compass_math) (fmm:=OpenGrid.engine)
                       far_goal_cycle room))).
  - reflexivity.
  - vm_compute. reflexivity.
  - vm_compute. discriminate.
  - right. vm_compute. discriminate.
Defined.



(** The grid of that cycle: the agent's corner cell is the only free one. *)
Example walled_grid :
  match traversible_grid
          (snd (plan_locate (math:=compass_math) walled_cycle boxed))
          (np_map np_rint (obstacle_map walled_cycle)) (0, 0) (0, 3, 0, 3)
  with
  | Ok trav => map (fun rc => item trav (fst rc) (snd rc)) (indices (3, 3))
  | Raise _ => []
  end = [1; 0; 0; 0; 0; 0; 0; 0; 0].
Proof. vm_compute. reflexivity. Qed.

(** Lines 353-356 on their own: with the agent in the first row or column
    and a radius of 1, the slice [start - 1 : start + 2] starts at -1, that
    is at the last index, and holds no cell; on a planner that has not
    marked the cell as visited the grid keeps the obstacle there, while one
    cell inside the disk is cleared. *)
Remark agent_disk_in_first_row :
  match traversible_grid boxed
          (np_map np_rint (obstacle_map walled_cycle)) (0, 0) (0, 3, 0, 3)
  with
  | Ok trav => map (fun rc => item trav (fst rc) (snd rc)) (indices (3, 3))
  | Raise _ => []
  end = [0; 0; 0; 0; 0; 0; 0; 0; 0] /\
  match traversible_grid boxed
          (np_map np_rint (obstacle_map walled_cycle)) (1, 1) (0, 3, 0, 3)
  with
  | Ok trav => map (fun rc => item trav (fst rc) (snd rc)) (indices (3, 3))
  | Raise _ => []
  end = [1; 1; 1; 1; 1; 1; 1; 1; 1].
Proof. vm_compute. split; reflexivity. Qed.

(* ================================================================= *)
(** * Further properties of the code *)

(** ** [add_boundary] and [remove_boundary] *)

Lemma slice_frame : forall v n,
  0 <= v -> 0 <= n ->
  py_slice v (- v) n
  = (Z.min v n, if v =? 0 then 0 else Z.max 0 (n - 2 * v)).
Proof.
  intros v n Hv Hn. unfold py_slice, slice_index.
  destruct (v <? 0) eqn:E1; [apply Z.ltb_lt in E1; lia |].
  destruct (v =? 0) eqn:E0.
  - apply Z.eqb_eq in E0. subst v. simpl. f_equal; lia.
  - apply Z.eqb_neq in E0.
    destruct (- v <? 0) eqn:E2; [| apply Z.ltb_ge in E2; lia].
    f_equal. lia.
Qed.

(** X2: [remove_boundary(mat, value)] uses [value] as the width it cuts
    from each side: for a positive width that fits twice, the result is the
    inner part of [mat], shifted by the width; for a width of 0 the slice
    [0:-0] is [0:0] and the result has no cell at all. *)
Theorem remove_boundary_crops : forall A (mat : ndarray A) (value : Z),
  0 <= value -> 0 <= nrows mat -> 0 <= ncols mat ->
  shape (remove_boundary mat value)
    = (if value =? 0 then 0 else Z.max 0 (nrows mat - 2 * value),
       if value =? 0 then 0 else Z.max 0 (ncols mat - 2 * value)) /\
  (2 * value <= nrows mat -> 2 * value <= ncols mat ->
   forall r c,
     item (remove_boundary mat value) r c
     = item mat (r + value) (c + value)).
Proof.
  intros A mat value Hv Hr Hc.
  unfold remove_boundary, whole, subview.
  cbn [vrows vcols].
  rewrite (slice_frame value (Z.max 0 (nrows mat))) by lia.
  rewrite (slice_frame value (Z.max 0 (ncols mat))) by lia.
  cbn [view_read shape item row0 col0 vrows vcols].
  split.
  - destruct (value =? 0); f_equal; lia.
  - intros H1 H2 r c. f_equal; lia.
Qed.

Lemma remove_boundary_crops_witness :
  shape (remove_boundary (mask_of (3, 3) [(1, 1)]) 0) = (0, 0) /\
  (2 * 0 <= 3 -> 2 * 0 <= 3 ->
   forall r c,
     item (remove_boundary (mask_of (3, 3) [(1, 1)]) 0) r c
     = item (mask_of (3, 3) [(1, 1)]) (r + 0) (c + 0)).
Proof.
  apply (remove_boundary_crops Z (mask_of (3, 3) [(1, 1)]) 0).
  - discriminate.
  - discriminate.
  - discriminate.
Defined.

Lemma remove_added_boundary : forall A (mat : ndarray A) (value : A),
  0 <= nrows mat -> 0 <= ncols mat ->
  shape (remove_boundary (add_boundary mat value) 1) = shape mat /\
  forall r c,
    item (remove_boundary (add_boundary mat value) 1) r c
    = if inside (shape mat) r c then item mat r c else value.
Proof.
  intros A mat value Hr Hc.
  assert (Er : nrows (add_boundary mat value) = nrows mat + 2) by reflexivity.
  assert (Ec : ncols (add_boundary mat value) = ncols mat + 2) by reflexivity.
  assert (Hs : shape (remove_boundary (add_boundary mat value) 1)
               = (Z.max 0 (nrows mat + 2 - 2 * 1),
                  Z.max 0 (ncols mat + 2 - 2 * 1)) /\
               forall r c,
                 item (remove_boundary (add_boundary mat value) 1) r c
                 = item (add_boundary mat value) (r + 1) (c + 1)).
  { unfold remove_boundary, whole, subview. cbn [vrows vcols].
    rewrite (slice_frame 1 (Z.max 0 (nrows (add_boundary mat value))))
      by lia.
    rewrite (slice_frame 1 (Z.max 0 (ncols (add_boundary mat value))))
      by lia.
    rewrite Er, Ec.
    cbn [view_read shape item row0 col0 vrows vcols Z.eqb].
    split; [f_equal; lia |].
    intros r c. f_equal; lia. }
  destruct Hs as (Hs & Hi).
  split.
  - rewrite Hs. unfold nrows, ncols in *.
    destruct (shape mat) as [h w]; cbn [fst snd] in *. f_equal; lia.
  - intros r c. rewrite Hi.
    unfold add_boundary. cbn [item].
    replace (r + 1 - 1) with r by lia. replace (c + 1 - 1) with c by lia.
    unfold nrows, ncols. destruct (shape mat); reflexivity.
Qed.

(** X1: [remove_boundary(add_boundary(mat, value))] is [mat] again: the
    shape is back and every cell of [mat] reads as before, whatever value
    the frame was filled with. *)
Theorem boundary_round_trip : forall A (mat : ndarray A) (value : A),
  0 <= nrows mat -> 0 <= ncols mat ->
  shape (remove_boundary (add_boundary mat value) 1) = shape mat /\
  forall r c,
    cell (remove_boundary (add_boundary mat value) 1) r c = cell mat r c.
Proof.
  intros A mat value Hr Hc.
  destruct (remove_added_boundary A mat value Hr Hc) as (Hs & Hi).
  split; [exact Hs |].
  intros r c. unfold cell. rewrite Hs, Hi.
  destruct (inside (shape mat) r c); reflexivity.
Qed.

Lemma boundary_round_trip_witness :
  shape (remove_boundary (add_boundary (mask_of (3, 3) [(1, 2)]) 7) 1)
    = (3, 3) /\
  forall r c,
    cell (remove_boundary (add_boundary (mask_of (3, 3) [(1, 2)]) 7) 1) r c
    = cell (mask_of (3, 3) [(1, 2)]) r c.
Proof.
  apply (boundary_round_trip Z (mask_of (3, 3) [(1, 2)]) 7).
  - discriminate.
  - discriminate.
Defined.

(** ** Maps that only grow *)

Lemma grows_refl : forall m, grows m m.
Proof. intros m; split; [reflexivity | intros; left; reflexivity]. Qed.

Lemma grows_trans : forall a b c, grows a b -> grows b c -> grows a c.
Proof.
  intros a b c (S1 & H1) (S2 & H2). split; [congruence |].
  intros r k. destruct (H2 r k) as [E | E]; [rewrite E; apply H1 | auto].
Qed.

Lemma shrinks_refl : forall m, shrinks m m.
Proof. intros m; split; [reflexivity | intros; left; reflexivity]. Qed.

Lemma shrinks_trans : forall a b c, shrinks a b -> shrinks b c -> shrinks a c.
Proof.
  intros a b c (S1 & H1) (S2 & H2). split; [congruence |].
  intros r k. destruct (H2 r k) as [E | E]; [rewrite E; apply H1 | auto].
Qed.

Lemma grows_keeps_set : forall m m' r c,
  grows m m' -> item m r c = 1 -> item m' r c = 1.
Proof.
  intros m m' r c (_ & H) E. destruct (H r c) as [E' | E']; congruence.
Qed.

Lemma view_fill_grows : forall m v, grows m (view_fill m v 1).
Proof.
  intros m v. split; [reflexivity |]. intros r c. simpl.
  destruct (in_view v r c); auto.
Qed.

Lemma setitem_grows : forall m r c m',
  setitem m r c 1 = Ok m' -> grows m m'.
Proof.
  intros m r c m' H. unfold setitem in H.
  destruct (py_index r (nrows m)); [| discriminate].
  destruct (py_index c (ncols m)); [| discriminate].
  inversion H; subst; clear H. split; [reflexivity |].
  intros i j. simpl. destruct ((i =? a) && (j =? a0)); auto.
Qed.

Lemma visited_grows_refl : forall s, visited_grows s s.
Proof. intros; apply grows_refl. Qed.

Lemma visited_grows_trans : forall a b c,
  visited_grows a b -> visited_grows b c -> visited_grows a c.
Proof. unfold visited_grows; intros; eapply grows_trans; eauto. Qed.

Lemma collision_grows_refl : forall s, collision_grows s s.
Proof. intros; apply grows_refl. Qed.

Lemma collision_grows_trans : forall a b c,
  collision_grows a b -> collision_grows b c -> collision_grows a c.
Proof. unfold collision_grows; intros; eapply grows_trans; eauto. Qed.

Section Growth.
Context {math : FloatMath} {fmm : FMMPlanner}.

(** X3: a call of [plan], returned or raised, never clears a cell of
    VisitedMap and never changes its shape. *)
Theorem plan_visited_map_grows : forall a s,
  shape (visited_map (snd (plan a s))) = shape (visited_map s) /\
  forall r c,
    item (visited_map (snd (plan a s))) r c = item (visited_map s) r c \/
    item (visited_map (snd (plan a s))) r c = 1.
Proof.
  intros a s.
  change (visited_grows s (snd (plan a s))).
  unfold plan, plan_locate, plan_resolve, plan_act.
  frames visited_grows_refl visited_grows_trans;
    try (apply visited_grows_refl).
  all: state_facts; unfold modify, visited_grows; cbn [snd];
    fields_in_all; try apply grows_refl.
  apply view_fill_grows.
Qed.

(** X4: [_check_collision], returned or raised, never clears a cell of
    CollisionMap and never changes its shape. *)
Theorem check_collision_map_grows : forall s,
  shape (collision_map (snd (_check_collision s))) = shape (collision_map s) /\
  forall r c,
    item (collision_map (snd (_check_collision s))) r c
      = item (collision_map s) r c \/
    item (collision_map (snd (_check_collision s))) r c = 1.
Proof.
  intros s.
  change (collision_grows s (snd (_check_collision s))).
  unfold _check_collision.
  frames collision_grows_refl collision_grows_trans;
    try (apply collision_grows_refl).
  all: state_facts; unfold modify, collision_grows; cbn [snd];
    fields_in_all; try apply grows_refl.
  eapply setitem_grows; eassumption.
Qed.

End Growth.

(** ** What every reachable planner satisfies *)

Lemma keeps_planner_inv_refl : forall s, keeps_planner_inv s s.
Proof. intros s; split; auto. Qed.

Lemma keeps_planner_inv_trans : forall a b c,
  keeps_planner_inv a b -> keeps_planner_inv b c -> keeps_planner_inv a c.
Proof.
  intros a b c (C1 & H1) (C2 & H2). split; [congruence | auto].
Qed.

Lemma grows_binary : forall m m', grows m m' -> binary m -> binary m'.
Proof.
  intros m m' (_ & H) B r c.
  destruct (H r c) as [E | E]; [rewrite E; apply B | auto].
Qed.

Lemma fresh_planner_inv : forall c, planner_inv (fresh c).
Proof.
  intros c. unfold planner_inv, binary. simpl.
  repeat split; auto. lia.
Qed.

Section Invariant.
Context {math : FloatMath} {fmm : FMMPlanner}.

Lemma check_collision_keeps_inv : forall s,
  keeps_planner_inv s (snd (_check_collision s)).
Proof.
  intros s. unfold _check_collision.
  frames keeps_planner_inv_refl keeps_planner_inv_trans;
    try (apply keeps_planner_inv_refl).
  all: state_facts; unfold modify, keeps_planner_inv, planner_inv;
    cbn [snd]; fields_in_all; (split; [reflexivity |]);
    intros (I1 & I2 & I3 & I4 & I5 & I6); repeat split; try assumption.
  all: match goal with
       | E : setitem _ _ _ 1 = Ok _ |- _ =>
           apply setitem_grows in E; destruct E as (Es & Ei)
       end.
  - congruence.
  - eapply grows_binary; [split; eassumption | assumption].
Qed.

(** Whatever its outcome, a run of [_get_short_term_goal] leaves the
    planner as it was or with the cycle counter advanced by one. *)
Lemma get_short_term_goal_any_outcome : forall om gm start w d s,
  snd (_get_short_term_goal om gm start w d s) = s \/
  snd (_get_short_term_goal om gm start w d s)
    = set_timestep (timestep s + 1) s.
Proof.
  intros om gm start w d s.
  unfold _get_short_term_goal, bind, get, gets, lift, modify, ret.
  destruct d; cbv beta zeta;
    repeat match goal with
           | E : (_, _) = (_, _) |- _ => inversion E; clear E; subst
           | E : context [match ?x with _ => _ end] |- _ =>
               destruct x eqn:?; try discriminate E
           | |- context [match ?x with _ => _ end] => destruct x eqn:?
           end; cbn [snd]; auto.
Qed.

Lemma set_timestep_keeps_inv : forall s,
  keeps_planner_inv s (set_timestep (timestep s + 1) s).
Proof.
  intros s. split; [reflexivity |].
  unfold planner_inv. simpl.
  intros (I1 & I2 & I3 & I4 & I5 & I6). repeat split; try assumption. lia.
Qed.

Lemma get_short_term_goal_keeps_inv : forall om gm start w d s,
  keeps_planner_inv s (snd (_get_short_term_goal om gm start w d s)).
Proof.
  intros om gm start w d s.
  destruct (get_short_term_goal_any_outcome om gm start w d s) as [E | E];
    rewrite E; [apply keeps_planner_inv_refl | apply set_timestep_keeps_inv].
Qed.

Lemma relax_obstacles_keeps_inv : forall s,
  keeps_planner_inv s (snd (relax_obstacles s)).
Proof.
  intros s. rewrite relax_obstacles_run. cbn [snd].
  split.
  - destruct (_ <? _); reflexivity.
  - unfold planner_inv.
    intros (I1 & I2 & I3 & I4 & I5 & I6).
    destruct (_ <? _); fields_in_all; cbn [np_map shape];
      repeat split; try assumption;
      intros r c; left; cbn [np_map item]; lia.
Qed.

Lemma plan_locate_keeps_inv : forall a s,
  keeps_planner_inv s (snd (plan_locate a s)).
Proof.
  intros a s. unfold plan_locate.
  frames keeps_planner_inv_refl keeps_planner_inv_trans;
    try (apply keeps_planner_inv_refl).
  all: state_facts; unfold modify, keeps_planner_inv, planner_inv;
    cbn [snd]; fields_in_all; (split; [reflexivity |]);
    intros (I1 & I2 & I3 & I4 & I5 & I6); repeat split; try assumption.
  all: try match goal with
       | E : setitem _ _ _ 1 = Ok _ |- _ =>
           apply setitem_grows in E; destruct E as (Es & Ei)
       end.
  all: try congruence.
  all: try (eapply grows_binary; [split; eassumption | assumption]).
  eapply grows_binary; [apply view_fill_grows | assumption].
Qed.

Lemma plan_act_keeps_inv : forall a l r fg s,
  keeps_planner_inv s (snd (plan_act a l r fg s)).
Proof.
  intros a l r fg s. unfold plan_act.
  frames keeps_planner_inv_refl keeps_planner_inv_trans;
    try (apply keeps_planner_inv_refl).
  all: unfold modify, keeps_planner_inv, planner_inv; cbn [snd];
    fields_in_all; split; [reflexivity | intros I; exact I].
Qed.

Lemma plan_keeps_inv : forall a s, keeps_planner_inv s (snd (plan a s)).
Proof.
  intros a s. unfold plan.
  apply (frame_bind _ keeps_planner_inv_trans);
    [apply plan_locate_keeps_inv | intros l s1 _].
  apply (frame_bind _ keeps_planner_inv_trans).
  - unfold plan_resolve.
    apply (frame_bind _ keeps_planner_inv_trans);
      [apply get_short_term_goal_keeps_inv | intros r1 s2 _].
    destruct (replan r1 && negb (stop r1));
      [| apply keeps_planner_inv_refl].
    apply (frame_bind _ keeps_planner_inv_trans);
      [apply relax_obstacles_keeps_inv | intros [] s3 _].
    destruct (found_goal a); [| apply keeps_planner_inv_refl].
    apply (frame_bind _ keeps_planner_inv_trans);
      [apply get_short_term_goal_keeps_inv | intros r2 s4 _].
    apply keeps_planner_inv_refl.
  - intros [r fg] s2 _. apply plan_act_keeps_inv.
Qed.

Lemma reachable_planner_inv : forall s, reachable s -> planner_inv s.
Proof.
  intros s H. induction H as [s s' Hr | s a H IH | s H IH].
  - apply reset_inv in Hr. subst s'. apply fresh_planner_inv.
  - apply (plan_keeps_inv a s). exact IH.
  - apply (check_collision_keeps_inv s). exact IH.
Qed.

(** X5: on every planner reachable from a [reset], CollisionMap and
    VisitedMap have the shape of the global map and hold only 0 and 1. *)
Theorem reachable_maps_are_binary : forall s,
  reachable s ->
  shape (collision_map s) = map_shape (cfg s) /\
  shape (visited_map s) = map_shape (cfg s) /\
  (forall r c, item (collision_map s) r c = 0 \/
               item (collision_map s) r c = 1) /\
  (forall r c, item (visited_map s) r c = 0 \/
               item (visited_map s) r c = 1).
Proof.
  intros s H.
  destruct (reachable_planner_inv s H) as (I1 & I2 & I3 & I4 & _).
  repeat split; assumption.
Qed.

(** X6: on every planner reachable from a [reset], the structuring element
    used to dilate obstacles is the disk of the current radius: the two
    attributes never drift apart. *)
Theorem reachable_selem_is_disk : forall s,
  reachable s ->
  obs_dilation_selem s = disk (curr_obs_dilation_selem_radius s).
Proof.
  intros s H.
  destruct (reachable_planner_inv s H) as (_ & _ & _ & _ & I5 & _).
  exact I5.
Qed.

End Invariant.

Lemma reachable_maps_are_binary_witness :
  shape (collision_map
           (snd (plan (math:=compass_math) (fmm:=OpenGrid.engine)
                   far_goal_cycle room))) = map_shape (cfg room) /\
  shape (visited_map
           (snd (plan (math:=compass_math) (fmm:=OpenGrid.engine)
                   far_goal_cycle room))) = map_shape (cfg room) /\
  (forall r c,
      item (collision_map
              (snd (plan (math:=compass_math) (fmm:=OpenGrid.engine)
                      far_goal_cycle room))) r c = 0 \/
      item (collision_map
              (snd (plan (math:=compass_math) (fmm:=OpenGrid.engine)
                      far_goal_cycle room))) r c = 1) /\
  (forall r c,
      item (visited_map
              (snd (plan (math:=compass_math) (fmm:=OpenGrid.engine)
                      far_goal_cycle room))) r c = 0 \/
      item (visited_map
              (snd (plan (math:=compass_math) (fmm:=OpenGrid.engine)
                      far_goal_cycle room))) r c = 1).
Proof.
  apply (reachable_maps_are_binary (math:=compass_math)
           (fmm:=OpenGrid.engine)
           (snd (plan (math:=compass_math) (fmm:=OpenGrid.engine)
                   far_goal_cycle room))).
  apply reach_plan. apply (reach_reset room room). reflexivity.
Defined.

Lemma reachable_selem_is_disk_witness :
  obs_dilation_selem
    (snd (plan (math:=compass_math) (fmm:=OpenGrid.engine)
            far_goal_cycle room))
  = disk (curr_obs_dilation_selem_radius
            (snd (plan (math:=compass_math) (fmm:=OpenGrid.engine)
                    far_goal_cycle room))).
Proof.
  apply (reachable_selem_is_disk (math:=compass_math) (fmm:=OpenGrid.engine)).
  apply reach_plan. apply (reach_reset room room). reflexivity.
Defined.

(** ** The cycle counter, whatever the outcome *)

Section Counting.
Context {math : FloatMath} {fmm : FMMPlanner}.

Lemma advanced_by_bind : forall n m A B (c : Planner A) (k : A -> Planner B),
  (forall s, advanced_by n s (snd (c s))) ->
  (forall a s, advanced_by m s (snd (k a s))) ->
  0 <= m ->
  forall s, advanced_by (n + m) s (snd (bind c k s)).
Proof.
  intros n m A B c k Hc Hk Hm s. unfold bind.
  specialize (Hc s). destruct (c s) as [[a | e] s1]; cbn [snd] in *.
  - specialize (Hk a s1). unfold advanced_by in *. lia.
  - unfold advanced_by in *. lia.
Qed.

Lemma advanced_by_more : forall n m s s',
  n <= m -> advanced_by n s s' -> advanced_by m s s'.
Proof. unfold advanced_by; intros; lia. Qed.

Lemma advanced_by_unchanged : forall s s',
  unchanged timestep s s' -> advanced_by 0 s s'.
Proof. unfold unchanged, advanced_by; intros; lia. Qed.

Lemma get_short_term_goal_counts : forall om gm start w d s,
  advanced_by 1 s (snd (_get_short_term_goal om gm start w d s)).
Proof.
  intros om gm start w d s. unfold advanced_by.
  destruct (get_short_term_goal_any_outcome om gm start w d s) as [E | E];
    rewrite E; simpl; lia.
Qed.

Lemma plan_resolve_counts : forall a l s,
  advanced_by 2 s (snd (plan_resolve a l s)).
Proof.
  intros a l s. unfold plan_resolve.
  apply (advanced_by_bind 1 1); [apply get_short_term_goal_counts | | lia].
  intros r1 s1.
  destruct (replan r1 && negb (stop r1));
    [| apply (advanced_by_more 0); [lia |];
       apply advanced_by_unchanged; reflexivity].
  apply (advanced_by_bind 0 1); [| | lia].
  - intros s2. apply advanced_by_unchanged.
    apply (relax_obstacles_frame _ timestep); reflexivity.
  - intros [] s2.
    destruct (found_goal a);
      [| apply (advanced_by_more 0); [lia |];
         apply advanced_by_unchanged; reflexivity].
    apply (advanced_by_bind 1 0); [apply get_short_term_goal_counts | | lia].
    intros r2 s3. apply advanced_by_unchanged. reflexivity.
Qed.

(** X7: a call of [plan], returned or raised, never lowers the cycle
    counter and raises it by at most 2. *)
Theorem plan_counts_at_most_twice : forall a s,
  timestep s <= timestep (snd (plan a s)) <= timestep s + 2.
Proof.
  intros a s. change (advanced_by (0 + (2 + 0)) s (snd (plan a s))).
  unfold plan.
  apply advanced_by_bind; [| | lia].
  - intros s0. apply advanced_by_unchanged.
    apply (plan_locate_frame _ timestep); reflexivity.
  - intros l s1.
    apply advanced_by_bind; [apply plan_resolve_counts | | lia].
    intros [r fg] s2. apply advanced_by_unchanged.
    apply (plan_act_frame _ timestep); reflexivity.
Qed.

End Counting.

(** ** STOP, exceptions and the last action *)

Section Outcomes.
Context {math : FloatMath} {fmm : FMMPlanner}.

(** X8: [plan] returns STOP only on a cycle that was called with
    [found_goal], whose first short-term goal carried the [stop] flag, and
    on which neither the failed-plan branch nor the frontier fallback ran:
    the fallback clears [found_goal] for the rest of the cycle. *)
Theorem stop_needs_found_goal : forall a s m s',
  plan a s = (Ok (STOP, m), s') ->
  found_goal a = true /\
  plan_fails a s = false /\
  fallback_runs a s = false /\
  match first_goal a s with
  | Ok (_, r1) => stop r1 = true
  | Raise _ => False
  end.
Proof.
  intros a s m s' H.
  destruct (plan_ok a s STOP m s' H) as (l & s1 & r & fg & s2 & E1 & E2 & E3).
  destruct (plan_resolve_ok a l s1 r fg s2 E2) as (r1 & Er1 & _ & Hstop).
  destruct (plan_act_ok a l r fg s2 STOP m s' E3) as (_ & _ & _ & Hact).
  destruct (Hstop (Hact eq_refl)) as (Hfound & Hs1).
  assert (Hfails : plan_fails a s = false).
  { unfold plan_fails, first_goal. rewrite E1, Er1, Hs1.
    apply andb_false_r. }
  unfold fallback_runs. rewrite Hfails.
  repeat split; try assumption.
  unfold first_goal. rewrite E1, Er1. exact Hs1.
Qed.

(** The last stage raises only when the closest-goal mask has no set cell,
    and then it has changed nothing. *)
Lemma plan_act_raise : forall a l r fg s e s',
  plan_act a l r fg s = (Raise e, s') ->
  s' = s /\ e = ValueError /\ np_nonzero (closest_goal_map r) = [].
Proof.
  intros a l r fg s e s' H. unfold plan_act in H.
  destruct (np_nonzero (closest_goal_map r)) as [| g gs] eqn:Eg.
  - run_inv H. repeat split.
    match goal with
    | E : np_random_randint _ _ = Raise _ |- _ =>
        vm_compute in E; inversion E; reflexivity
    end.
  - exfalso. unfold np_random_randint in H.
    replace (Z.of_nat (length (g :: gs)) <=? 0) with false in H
      by (symmetry; apply Z.leb_gt; simpl length; lia).
    run_inv H.
Qed.

(** X9: a call of [plan] that raises leaves the last action as it was: the
    action is stored only at the very end of a call that returns. *)
Theorem raising_plan_keeps_last_action : forall a s e s',
  plan a s = (Raise e, s') -> last_action s' = last_action s.
Proof.
  intros a s e s' H. unfold plan, bind in H.
  pose proof (plan_locate_frame _ last_action (fun _ _ => eq_refl)
                (fun _ _ => eq_refl) (fun _ _ => eq_refl)
                (fun _ _ => eq_refl) (fun _ _ => eq_refl) a s) as H1.
  unfold unchanged in H1.
  destruct (plan_locate a s) as [[l | e1] s1]; cbn [snd] in *;
    [| inversion H; subst; exact H1].
  pose proof (plan_resolve_frame _ last_action (fun _ _ => eq_refl)
                (fun _ _ => eq_refl) (fun _ _ _ => eq_refl) a l s1) as H2.
  unfold unchanged in H2.
  destruct (plan_resolve a l s1) as [[[r fg] | e2] s2]; cbn [snd] in *;
    [| inversion H; subst; congruence].
  destruct (plan_act_raise a l r fg s2 e s' H) as (Es & _).
  subst s'. congruence.
Qed.

(** X10: the collision check runs only after a MOVE_FORWARD: when the last
    action is anything else, or none, a call of [plan], returned or raised,
    leaves the footprint-width counter as it was and sets no cell of
    CollisionMap (a failed plan may still clear the map). *)
Theorem no_collision_check_without_forward_move : forall a s,
  last_action s <> Some MOVE_FORWARD ->
  col_width (snd (plan a s)) = col_width s /\
  shape (collision_map (snd (plan a s))) = shape (collision_map s) /\
  forall r c,
    item (collision_map (snd (plan a s))) r c = item (collision_map s) r c \/
    item (collision_map (snd (plan a s))) r c = 0.
Proof.
  intros a s Hlast.
  assert (Hloc : col_width (snd (plan_locate a s)) = col_width s /\
                 collision_map (snd (plan_locate a s)) = collision_map s).
  { unfold plan_locate, bind, get, gets, modify, when, ret, raise.
    cbn [fst snd]. fields_in_all.
    destruct (map_resolution (cfg s) =? 0); cbn [snd]; [split; reflexivity |].
    destruct (last_action s) as [[| | |] |]; cbn [action_eqb snd];
      try (split; reflexivity).
    exfalso. apply Hlast. reflexivity. }
  destruct Hloc as (Hw & Hcm).
  assert (Hrest : col_width (snd (plan a s))
                    = col_width (snd (plan_locate a s)) /\
                  collision_shrinks (snd (plan_locate a s)) (snd (plan a s))).
  { unfold plan.
    set (k := fun l : Located =>
                bind (plan_resolve a l)
                  (fun x => match x with (r, fg) => plan_act a l r fg end)).
    assert (Hk : forall l s2,
               col_width (snd (k l s2)) = col_width s2 /\
               collision_shrinks s2 (snd (k l s2))).
    { intros l s2. subst k. cbv beta. split.
      - change (unchanged col_width s2
                  (snd (bind (plan_resolve a l)
                          (fun x => match x with
                                    | (r, fg) => plan_act a l r fg
                                    end) s2))).
        apply (frame_bind _ (unchanged_trans _ _ col_width)).
        + apply (plan_resolve_frame _ col_width); reflexivity.
        + intros [r fg] s3 _.
          apply (plan_act_frame _ col_width); reflexivity.
      - unfold collision_shrinks.
        apply (frame_bind (fun x y => shrinks (collision_map x)
                                              (collision_map y))).
        + intros x y z; apply shrinks_trans.
        + unfold plan_resolve.
          apply (frame_bind (fun x y => shrinks (collision_map x)
                                                (collision_map y)));
            [intros x y z; apply shrinks_trans | |].
          * rewrite (get_short_term_goal_frame _ collision_map
                       (fun _ _ => eq_refl)). apply shrinks_refl.
          * intros r1 s3 _.
            destruct (replan r1 && negb (stop r1)); [| apply shrinks_refl].
            apply (frame_bind (fun x y => shrinks (collision_map x)
                                                  (collision_map y)));
              [intros x y z; apply shrinks_trans | |].
            -- rewrite relax_obstacles_run. cbn [snd].
               destruct (_ <? _); split; try reflexivity;
                 intros i j; right; fields_in_all;
                 cbn [np_map item]; lia.
            -- intros [] s4 _.
               destruct (found_goal a); [| apply shrinks_refl].
               apply (frame_bind (fun x y => shrinks (collision_map x)
                                                     (collision_map y)));
                 [intros x y z; apply shrinks_trans | |].
               ++ rewrite (get_short_term_goal_frame _ collision_map
                             (fun _ _ => eq_refl)). apply shrinks_refl.
               ++ intros; apply shrinks_refl.
        + intros [r fg] s3 _.
          rewrite (plan_act_frame _ collision_map (fun _ _ => eq_refl)).
          apply shrinks_refl. }
    clearbody k. unfold bind.
    destruct (plan_locate a s) as [[l | e] s2]; cbn [snd].
    - apply Hk.
    - split; [reflexivity | apply shrinks_refl]. }
  destruct Hrest as (Hw' & Hs & Hi).
  rewrite Hw', Hw. rewrite Hcm in Hs, Hi.
  repeat split; assumption.
Qed.

End Outcomes.

Lemma stop_needs_found_goal_witness :
  found_goal dilated_cycle = true /\
  plan_fails (math:=compass_math) (fmm:=OpenGrid.engine) dilated_cycle room
    = false /\
  fallback_runs (math:=compass_math) (fmm:=OpenGrid.engine)
    dilated_cycle room = false /\
  match first_goal (math:=compass_math) (fmm:=OpenGrid.engine)
          dilated_cycle room with
  | Ok (_, r1) => stop r1 = true
  | Raise _ => False
  end.
Proof.
  apply (stop_needs_found_goal (math:=compass_math) (fmm:=OpenGrid.engine)
           dilated_cycle room
           (returned_mask
              (plan (math:=compass_math) (fmm:=OpenGrid.engine)
                 dilated_cycle room))
           (snd (plan (math:=compass_math) (fmm:=OpenGrid.engine)
                   dilated_cycle room))).
  vm_compute. reflexivity.
Defined.

Lemma raising_plan_keeps_last_action_witness :
  last_action
    (snd (plan (math:=compass_math) (fmm:=OpenGrid.engine)
            no_goal_cycle room))
  = last_action room.
Proof.
  apply (raising_plan_keeps_last_action (math:=compass_math)
           (fmm:=OpenGrid.engine) no_goal_cycle room ValueError).
  vm_compute. reflexivity.
Defined.

Lemma no_collision_check_without_forward_move_witness :
  col_width
    (snd (plan (math:=compass_math) (fmm:=OpenGrid.engine)
            far_goal_cycle room))
    = col_width room /\
  shape (collision_map
           (snd (plan (math:=compass_math) (fmm:=OpenGrid.engine)
                   far_goal_cycle room)))
    = shape (collision_map room) /\
  forall r c,
    item (collision_map
            (snd (plan (math:=compass_math) (fmm:=OpenGrid.engine)
                    far_goal_cycle room))) r c
      = item (collision_map room) r c \/
    item (collision_map
            (snd (plan (math:=compass_math) (fmm:=OpenGrid.engine)
                    far_goal_cycle room))) r c = 0.
Proof.
  apply (no_collision_check_without_forward_move (math:=compass_math)
           (fmm:=OpenGrid.engine) far_goal_cycle room).
  discriminate.
Defined.

(** ** The first stage of [plan] and [reset] between episodes *)

Section Stages.
Context {math : FloatMath} {fmm : FMMPlanner}.


Lemma run_cycles_cfg : forall cycles s, cfg (run_cycles cycles s) = cfg s.
Proof.
  intros cycles s. destruct (run_cycles_radius_step cycles s) as (H & _).
  exact H.
Qed.

(** X12: [reset] forgets the episode: after any sequence of [plan] calls,
    returned or raised, [reset] returns again and leaves exactly the
    planner that the [reset] before the episode left. *)
Theorem reset_forgets_episode : forall s s0 cycles,
  reset s = (Ok tt, s0) ->
  reset (run_cycles cycles s0) = (Ok tt, s0).
Proof.
  intros s s0 cycles H.
  pose proof (reset_inv s s0 H) as E. subst s0.
  assert (Hshape : 0 <= map_size_cm (cfg s) / map_resolution (cfg s)).
  { unfold reset, bind, gets, lift in H. cbn [fst snd] in H.
    unfold np_zeros, map_shape in H. cbn [fst snd] in H.
    destruct (map_size_cm (cfg s) / map_resolution (cfg s) <? 0) eqn:En;
      [discriminate H | apply Z.ltb_ge in En; exact En]. }
  rewrite reset_returns; rewrite run_cycles_cfg; [reflexivity |].
  exact Hshape.
Qed.

End Stages.


Lemma reset_forgets_episode_witness :
  reset (run_cycles (math:=compass_math) (fmm:=OpenGrid.engine)
           [far_goal_cycle; no_goal_cycle; dilated_cycle] room)
  = (Ok tt, room).
Proof.
  apply (reset_forgets_episode (math:=compass_math) (fmm:=OpenGrid.engine)
           room room [far_goal_cycle; no_goal_cycle; dilated_cycle]).
  reflexivity.
Defined.

(** ** The closest-goal mask *)

Lemma closest_goal_ok : forall g f mask pt,
  closest_goal g f = Ok (mask, pt) ->
  shape mask = shape (remove_boundary g 1) /\
  np_argmax mask = Ok pt.
Proof.
  intros g f mask pt H. unfold closest_goal in H.
  destruct (negb (shape_eqb _ _)); [discriminate |].
  destruct (np_min _) as [m |]; [| discriminate].
  destruct (np_argmax _) as [p |] eqn:Ea; [| discriminate].
  inversion H; subst; clear H. split; [reflexivity | exact Ea].
Qed.

Lemma padded_mask_shape : forall (gm : ndarray Z),
  0 <= nrows gm -> 0 <= ncols gm ->
  shape (remove_boundary (add_boundary gm 0) 1) = shape gm.
Proof.
  intros gm Hr Hc. apply (remove_added_boundary Z gm 0 Hr Hc).
Qed.

Lemma indices_first : forall sh p rest,
  indices sh = p :: rest -> p = (0, 0).
Proof.
  intros [h w] p rest. unfold indices, range. cbn [fst snd].
  destruct (Z.to_nat h) as [| n]; [discriminate |].
  destruct (Z.to_nat w) as [| k].
  - simpl. intros H. exfalso. revert H.
    generalize (seq 1 n). intros l. induction l; simpl; [discriminate | auto].
  - simpl. intros H. inversion H. reflexivity.
Qed.

Lemma np_argmax_first : forall m pt,
  np_argmax m = Ok pt ->
  (np_nonzero m = [] /\ pt = (0, 0)) \/
  (exists rest, np_nonzero m = pt :: rest).
Proof.
  intros m pt H. unfold np_argmax in H.
  destruct (indices (shape m)) as [| first l] eqn:Ei; [discriminate |].
  destruct (np_nonzero m) as [| rc rest] eqn:En.
  - inversion H; subst. left. split; [reflexivity |].
    eapply indices_first; eassumption.
  - inversion H; subst. right. exists rest. reflexivity.
Qed.

Section ClosestGoal.
Context {math : FloatMath} {fmm : FMMPlanner}.

Lemma get_short_term_goal_mask : forall om gm start w d s r s',
  _get_short_term_goal om gm start w d s = (Ok r, s') ->
  shape (closest_goal_map r) = shape (remove_boundary (add_boundary gm 0) 1) /\
  np_argmax (closest_goal_map r) = Ok (closest_goal_pt r).
Proof.
  intros om gm start w d s r s' H.
  unfold _get_short_term_goal in H.
  destruct d; run_inv H; cbn [closest_goal_map closest_goal_pt];
    match goal with
    | E : closest_goal _ _ = Ok _ |- _ => apply (closest_goal_ok _ _ _ _ E)
    end.
Qed.

(** X13: the closest-goal point that [_get_short_term_goal] returns is the
    first set cell of the closest-goal mask in row-major order; when the
    mask has no set cell it is the cell (0, 0), which then stands in for the
    goal in the distance test of the precise mode. *)
Theorem closest_goal_pt_is_first_set_cell : forall om gm start w d s r s',
  _get_short_term_goal om gm start w d s = (Ok r, s') ->
  (np_nonzero (closest_goal_map r) = [] /\ closest_goal_pt r = (0, 0)) \/
  (exists rest, np_nonzero (closest_goal_map r) = closest_goal_pt r :: rest).
Proof.
  intros om gm start w d s r s' H.
  destruct (get_short_term_goal_mask _ _ _ _ _ _ _ _ H) as (_ & Ha).
  apply np_argmax_first. exact Ha.
Qed.

(** X14: the mask that [plan] returns has the shape of the goal map, or of
    the frontier map on a cycle where the frontier fallback ran. *)
Theorem returned_mask_shape : forall a s act m s',
  plan a s = (Ok (act, m), s') ->
  0 <= nrows (goal_map a) -> 0 <= ncols (goal_map a) ->
  0 <= nrows (frontier_map a) -> 0 <= ncols (frontier_map a) ->
  shape m
  = shape (if fallback_runs a s then frontier_map a else goal_map a).
Proof.
  intros a s act m s' H Hg1 Hg2 Hf1 Hf2.
  destruct (plan_ok a s act m s' H) as (l & s1 & r & fg & s2 & E1 & E2 & E3).
  destruct (plan_act_ok a l r fg s2 act m s' E3) as (_ & Em & _). subst m.
  destruct (plan_resolve_ok a l s1 r fg s2 E2) as (r1 & Er1 & _).
  assert (Hfb : fallback_runs a s
                = replan r1 && negb (stop r1) && found_goal a).
  { unfold fallback_runs, plan_fails, first_goal. rewrite E1, Er1.
    reflexivity. }
  rewrite Hfb. unfold plan_resolve in E2.
  rewrite (bind_run _ _ _ _ _ _ _ _ Er1) in E2.
  destruct (replan r1 && negb (stop r1)); cbn [andb].
  - rewrite (bind_run _ _ _ _ _ _ _ _ (relax_obstacles_run _)) in E2.
    destruct (found_goal a).
    + apply bind_ok in E2. destruct E2 as (r' & s3 & E3' & E2).
      inversion E2; subst.
      destruct (get_short_term_goal_mask _ _ _ _ _ _ _ _ E3') as (Hs & _).
      rewrite Hs. apply padded_mask_shape; assumption.
    + inversion E2; subst.
      destruct (get_short_term_goal_mask _ _ _ _ _ _ _ _ Er1) as (Hs & _).
      rewrite Hs. apply padded_mask_shape; assumption.
  - inversion E2; subst.
    destruct (get_short_term_goal_mask _ _ _ _ _ _ _ _ Er1) as (Hs & _).
    rewrite Hs. apply padded_mask_shape; assumption.
Qed.

End ClosestGoal.

Lemma closest_goal_pt_is_first_set_cell_witness :
  (np_nonzero
     (closest_goal_map
        (goal_in (first_goal (math:=compass_math) (fmm:=OpenGrid.engine)
                    no_goal_cycle room))) = [] /\
   closest_goal_pt
     (goal_in (first_goal (math:=compass_math) (fmm:=OpenGrid.engine)
                 no_goal_cycle room)) = (0, 0)) \/
  (exists rest,
      np_nonzero
        (closest_goal_map
           (goal_in (first_goal (math:=compass_math) (fmm:=OpenGrid.engine)
                       no_goal_cycle room)))
      = closest_goal_pt
          (goal_in (first_goal (math:=compass_math) (fmm:=OpenGrid.engine)
                      no_goal_cycle room)) :: rest).
Proof.
  apply (closest_goal_pt_is_first_set_cell (fmm:=OpenGrid.engine)
           (np_map np_rint (obstacle_map no_goal_cycle))
           (goal_map no_goal_cycle) (0, 0) (0, 3, 0, 3) false
           (snd (plan_locate (math:=compass_math) no_goal_cycle room))
           (goal_in (first_goal (math:=compass_math) (fmm:=OpenGrid.engine)
                       no_goal_cycle room))
           (snd (_get_short_term_goal (fmm:=OpenGrid.engine)
                   (np_map np_rint (obstacle_map no_goal_cycle))
                   (goal_map no_goal_cycle) (0, 0) (0, 3, 0, 3) false
                   (snd (plan_locate (math:=compass_math)
                           no_goal_cycle room))))).
  vm_compute. reflexivity.
Defined.

Lemma returned_mask_shape_witness :
  shape (returned_mask
           (plan (math:=compass_math) (fmm:=OpenGrid.engine)
              far_goal_cycle room))
  = shape (if fallback_runs (math:=compass_math) (fmm:=OpenGrid.engine)
                far_goal_cycle room
           then frontier_map far_goal_cycle else goal_map far_goal_cycle).
Proof.
  apply (returned_mask_shape (math:=compass_math) (fmm:=OpenGrid.engine)
           far_goal_cycle room TURN_RIGHT
           (returned_mask
              (plan (math:=compass_math) (fmm:=OpenGrid.engine)
                 far_goal_cycle room))
           (snd (plan (math:=compass_math) (fmm:=OpenGrid.engine)
                   far_goal_cycle room))).
  - vm_compute. reflexivity.
  - discriminate.
  - discriminate.
  - discriminate.
  - discriminate.
Defined.

(** ** CollisionMap and VisitedMap over a returned call *)

Lemma py_slice_unit : forall a n,
  0 <= n -> snd (py_slice (a - 0) (a + 1) n) <= 1.
Proof.
  intros a n Hn. unfold py_slice, slice_index. cbn [snd].
  replace (a - 0) with a by lia.
  destruct (a <? 0) eqn:E1; destruct (a + 1 <? 0) eqn:E2;
    try apply Z.ltb_lt in E1; try apply Z.ltb_ge in E1;
    try apply Z.ltb_lt in E2; try apply Z.ltb_ge in E2; lia.
Qed.

Lemma window_cell_unit : forall (vm : ndarray Z) win p q,
  vrows (window_view vm win (p - 0) (p + 1) (q - 0) (q + 1)) <= 1 /\
  vcols (window_view vm win (p - 0) (p + 1) (q - 0) (q + 1)) <= 1.
Proof.
  intros vm [[[g1 g2] g3] g4] p q. unfold window_view.
  destruct (subview_sizes (whole vm) g1 g2 g3 g4) as [Wr Wc].
  set (W := subview (whole vm) g1 g2 g3 g4) in *.
  unfold subview.
  pose proof (py_slice_unit p (vrows W) Wr).
  pose proof (py_slice_unit q (vcols W) Wc).
  destruct (py_slice (p - 0) (p + 1) (vrows W)),
           (py_slice (q - 0) (q + 1) (vcols W)).
  cbn [vrows vcols snd] in *. lia.
Qed.

Section Maps.
Context {math : FloatMath} {fmm : FMMPlanner}.

Lemma plan_locate_collision_grows : forall a s,
  collision_grows s (snd (plan_locate a s)).
Proof.
  intros a s. unfold plan_locate.
  frames collision_grows_refl collision_grows_trans;
    try (apply collision_grows_refl).
  all: state_facts; unfold modify, collision_grows; cbn [snd];
    fields_in_all; try apply grows_refl.
  eapply setitem_grows; eassumption.
Qed.

(** X15: when a call of [plan] returns and its first short-term goal did
    not signal a failed plan, every cell of CollisionMap that was set
    before the call is still set after it: a collision is forgotten only
    through the clearing of a failed plan. *)
Theorem collisions_kept_unless_plan_fails : forall a s act m s',
  plan a s = (Ok (act, m), s') ->
  plan_fails a s = false ->
  shape (collision_map s') = shape (collision_map s) /\
  forall r c,
    item (collision_map s) r c = 1 -> item (collision_map s') r c = 1.
Proof.
  intros a s act m s' H Hfails.
  destruct (plan_ok a s act m s' H) as (l & s1 & r & fg & s2 & E1 & E2 & E3).
  destruct (plan_resolve_ok a l s1 r fg s2 E2) as (r1 & Er1 & _).
  destruct (plan_resolve_relaxes a l s1 r fg s2 r1 _ E2 Er1)
    as (_ & _ & Hkeep).
  destruct (plan_act_ok a l r fg s2 act m s' E3) as (Es' & _).
  unfold plan_fails, first_goal in Hfails. rewrite E1, Er1 in Hfails.
  pose proof (plan_locate_collision_grows a s) as Hg.
  rewrite E1 in Hg. cbn [snd] in Hg. unfold collision_grows in Hg.
  subst s'. cbn [set_last_action collision_map].
  rewrite (Hkeep Hfails).
  split; [apply Hg |].
  intros i j Hset. eapply grows_keeps_set; eassumption.
Qed.

(** X16: a call of [plan] that returns changes VisitedMap in at most one
    cell, and that cell then holds 1. *)
Theorem plan_marks_one_cell : forall a s act m s',
  plan a s = (Ok (act, m), s') ->
  forall r c r' c',
    item (visited_map s') r c <> item (visited_map s) r c ->
    item (visited_map s') r' c' <> item (visited_map s) r' c' ->
    r = r' /\ c = c' /\ item (visited_map s') r c = 1.
Proof.
  intros a s act m s' H r c r' c' H1 H2.
  destruct (plan_ok a s act m s' H) as (l & s1 & rr & fg & s2 & E1 & E2 & E3).
  destruct (plan_locate_ok a s l s1 E1) as (_ & _ & _ & Hvm & _).
  destruct (plan_act_ok a l rr fg s2 act m s' E3) as (Es' & _).
  pose proof (plan_resolve_frame _ visited_map (fun _ _ => eq_refl)
                (fun _ _ => eq_refl) (fun _ _ _ => eq_refl) a l s1) as F.
  unfold unchanged in F. rewrite E2 in F. cbn [snd] in F.
  subst s'. cbn [set_last_action visited_map] in *.
  rewrite F, Hvm in *. cbn [view_fill item] in *.
  destruct (window_cell_unit (visited_map s) (planning_window a)
              (fst (agent_cell a s)) (snd (agent_cell a s))) as [Vr Vc].
  set (V := window_view (visited_map s) (planning_window a) _ _ _ _) in *.
  destruct (in_view V r c) eqn:I1; [| contradiction H1; reflexivity].
  destruct (in_view V r' c') eqn:I2; [| contradiction H2; reflexivity].
  unfold in_view in I1, I2.
  repeat (apply andb_true_iff in I1; destruct I1 as [I1 ?]).
  repeat (apply andb_true_iff in I2; destruct I2 as [I2 ?]).
  repeat match goal with
         | Hb : (_ <=? _) = true |- _ => apply Z.leb_le in Hb
         | Hb : (_ <? _) = true |- _ => apply Z.ltb_lt in Hb
         end.
  repeat split; try lia.
Qed.

End Maps.

Lemma collisions_kept_unless_plan_fails_witness :
  shape (collision_map
           (snd (plan (math:=compass_math) (fmm:=OpenGrid.engine)
                   dilated_cycle boxed)))
  = shape (collision_map boxed) /\
  forall r c,
    item (collision_map boxed) r c = 1 ->
    item (collision_map
            (snd (plan (math:=compass_math) (fmm:=OpenGrid.engine)
                    dilated_cycle boxed))) r c = 1.
Proof.
  apply (collisions_kept_unless_plan_fails (math:=compass_math)
           (fmm:=OpenGrid.engine) dilated_cycle boxed STOP
           (returned_mask
              (plan (math:=compass_math) (fmm:=OpenGrid.engine)
                 dilated_cycle boxed))
           (snd (plan (math:=compass_math) (fmm:=OpenGrid.engine)
                   dilated_cycle boxed))).
  - vm_compute. reflexivity.
  - vm_compute. reflexivity.
Defined.

Lemma plan_marks_one_cell_witness :
  painted (visited_map room) = [] /\
  painted (visited_map
             (snd (plan (math:=compass_math) (fmm:=OpenGrid.engine)
                     far_goal_cycle room))) = [(1, 0)] /\
  (1 = 1 /\ 0 = 0 /\
   item (visited_map
           (snd (plan (math:=compass_math) (fmm:=OpenGrid.engine)
                   far_goal_cycle room))) 1 0 = 1).
Proof.
  split; [vm_compute; reflexivity |].
  split; [vm_compute; reflexivity |].
  apply (plan_marks_one_cell (math:=compass_math) (fmm:=OpenGrid.engine)
           far_goal_cycle room TURN_RIGHT
           (returned_mask
              (plan (math:=compass_math) (fmm:=OpenGrid.engine)
                 far_goal_cycle room))
           (snd (plan (math:=compass_math) (fmm:=OpenGrid.engine)
                   far_goal_cycle room))).
  - vm_compute. reflexivity.
  - vm_compute. discriminate.
  - vm_compute. discriminate.
Defined.
